(** * Container execution and lifecycle of unity-builder

    A shallow embedding of [src/model/docker.ts] and [src/model/action.ts]:
    the identity-file path, the removal of a leftover container, the
    platform dispatch of [Docker.run] and the two command templates.

    Strings are Rocq strings; the host (files and the journal of the
    effects the code performs) is threaded through a small state and
    exception monad; the files are a [gmap] from path to node. *)

From Stdlib Require Import String Ascii List Bool ZArith Lia DecimalString.
From stdpp Require Import base gmap strings fin_maps.
Import ListNotations.
Open Scope string_scope.
Open Scope list_scope.

(** ** Text: searching, and template literals *)

Module Text.

(** The double quote character, and the text made of it. *)
Definition quoteChar : ascii := "034"%char.
Definition quote : string := String quoteChar "".

(** [s.startsWith(n)] *)
Fixpoint starts_with (n s : string) : bool :=
  match n with
  | "" => true
  | String c n' =>
      match s with
      | "" => false
      | String d s' => Ascii.eqb c d && starts_with n' s'
      end
  end.

(** [s.includes(n)] *)
Fixpoint occurs (n s : string) : bool :=
  match s with
  | "" => starts_with n ""
  | String _ s' => starts_with n s || occurs n s'
  end.

(** [s.endsWith("/")] and the like: the last character of [s]. *)
Fixpoint last_char (s : string) : option ascii :=
  match s with
  | "" => None
  | String c "" => Some c
  | String _ s' => last_char s'
  end.

(** A JavaScript template literal is a sequence of literal chunks and
    interpolated values; its value is their concatenation.  A
    conditional interpolation whose branches are template or string
    literals contributes the pieces of the chosen branch. *)
Inductive Piece : Type :=
| Lit (s : string)
| Ins (s : string).

Definition text (p : Piece) : string :=
  match p with Lit s => s | Ins s => s end.

Definition render (t : list Piece) : string :=
  fold_right (fun p rest => text p +:+ rest) "" t.

Definition literals (t : list Piece) : list string :=
  flat_map (fun p => match p with Lit s => [s] | Ins _ => [] end) t.

Definition interpolated (t : list Piece) : list string :=
  flat_map (fun p => match p with Lit _ => [] | Ins s => [s] end) t.

(** The pieces of [cond ? <template> : ''] *)
Definition whenever (cond : bool) (t : list Piece) : list Piece :=
  if cond then t else [].

(** *** Conditions under which a needle cannot straddle two pieces *)

(** [s] is a prefix of [n] and shorter than [n]: a match of [n] that
    starts where [s] starts would run past the end of [s]. *)
Fixpoint strict_prefix (s n : string) : bool :=
  match s, n with
  | "", "" => false
  | "", String _ _ => true
  | String _ _, "" => false
  | String c s', String d n' => Ascii.eqb c d && strict_prefix s' n'
  end.

(** No match of [n] that starts inside the chunk [l] runs past its end. *)
Fixpoint closes (n l : string) : bool :=
  match l with
  | "" => true
  | String _ l' => negb (strict_prefix l n) && closes n l'
  end.

(** [y] and [l] differ at a position both have. *)
Fixpoint clash (y l : string) : bool :=
  match y, l with
  | String c y', String d l' => if Ascii.eqb c d then clash y' l' else true
  | _, _ => false
  end.

(** Every non-empty suffix of [m] clashes with [l]. *)
Fixpoint suffixes_clash (m l : string) : bool :=
  match m with
  | "" => true
  | String _ m' => clash m l && suffixes_clash m' l
  end.

(** No match of [n] that starts before the chunk [l] runs into it. *)
Definition opens (n l : string) : bool :=
  match n with
  | "" => true
  | String _ m => suffixes_clash m l
  end.

(** Literal chunks that stand next to each other, made one. *)
Fixpoint fuse (t : list Piece) : list Piece :=
  match t with
  | [] => []
  | Lit a :: r =>
      match fuse r with
      | Lit b :: r' => Lit (a +:+ b) :: r'
      | r' => Lit a :: r'
      end
  | Ins x :: r => Ins x :: fuse r
  end.

(** The pieces [m] stand next to each other somewhere in [t]. *)
Fixpoint has_run (m t : list Piece) : Prop :=
  match t with
  | [] => m = []
  | _ :: t' => (exists rest, t = m ++ rest) \/ has_run m t'
  end.

(** Every literal chunk closes, every interpolated value is followed by
    nothing or by a literal chunk that opens. *)
Fixpoint guarded (n : string) (t : list Piece) : bool :=
  match t with
  | [] => true
  | Lit l :: r => closes n l && guarded n r
  | Ins _ :: r =>
      match r with
      | [] => true
      | Lit l :: _ => opens n l
      | Ins _ :: _ => false
      end && guarded n r
  end.

End Text.

(** ** The JavaScript values the code relies on *)

Module Js.

(** Truthiness of a [string | undefined] value: [undefined] and the
    empty string are falsy. *)
Definition truthy (v : option string) : bool :=
  match v with
  | Some s => negb (s =? "")
  | None => false
  end.

(** The text a value interpolates to in a template literal. *)
Definition str (v : option string) : string :=
  match v with
  | Some s => s
  | None => "undefined"
  end.

(** White space of [String.prototype.trim] among the one-byte code
    units: TAB, LF, VT, FF, CR, SP and NBSP. *)
Definition isWhiteSpace (c : ascii) : bool :=
  let n := nat_of_ascii c in
  ((9 <=? n)%nat && (n <=? 13)%nat) || (n =? 32)%nat || (n =? 160)%nat.

Fixpoint trimStart (s : string) : string :=
  match s with
  | "" => ""
  | String c s' => if isWhiteSpace c then trimStart s' else s
  end.

Fixpoint trimEnd (s : string) : string :=
  match s with
  | "" => ""
  | String c s' =>
      match trimEnd s' with
      | "" => if isWhiteSpace c then "" else String c ""
      | t => String c t
      end
  end.

(** [s.trim()] removes white space at both ends. *)
Definition trim (s : string) : string := trimEnd (trimStart s).

(** [n.toString()] of a natural number: its decimal digits. *)
Definition numberToString (n : nat) : string :=
  NilEmpty.string_of_uint (Nat.to_uint n).

(** [array.includes(x)] on strings *)
Definition includes (l : list string) (x : string) : bool :=
  existsb (String.eqb x) l.

End Js.

(** ** [node:path] on a POSIX host *)

Module path.

Definition slash : ascii := "/"%char.

(** The segments between the slashes of a path. *)
Fixpoint split (s : string) : list string :=
  match s with
  | "" => [""]
  | String c s' =>
      if Ascii.eqb c slash then "" :: split s'
      else match split s' with
           | seg :: r => String c seg :: r
           | [] => [String c ""]
           end
  end.

(** One segment of [normalizeString]: empty and [.] segments are
    dropped, [..] removes the segment before it unless there is none or
    it is [..] itself, in which case [..] is kept when the path may
    climb above its start.  [res] holds the kept segments, last first. *)
Definition visit (allowAboveRoot : bool) (res : list string) (seg : string)
  : list string :=
  if (seg =? "") || (seg =? ".") then res
  else if seg =? ".." then
    match res with
    | top :: below =>
        if top =? ".." then (if allowAboveRoot then ".." :: res else res)
        else below
    | [] => if allowAboveRoot then [".."] else []
    end
  else seg :: res.

Definition normalizeString (p : string) (allowAboveRoot : bool) : string :=
  String.concat "/" (rev (fold_left (visit allowAboveRoot) (split p) [])).

Definition isAbsolute (p : string) : bool := Text.starts_with "/" p.

Definition trailingSeparator (p : string) : bool :=
  match Text.last_char p with
  | Some c => Ascii.eqb c slash
  | None => false
  end.

(** [path.normalize] *)
Definition normalize (p : string) : string :=
  if p =? "" then "."
  else
    let body := normalizeString p (negb (isAbsolute p)) in
    if body =? "" then
      (if isAbsolute p then "/" else if trailingSeparator p then "./" else ".")
    else
      (if isAbsolute p then "/" else "") +:+ body
      +:+ (if trailingSeparator p then "/" else "").

(** [path.join]: the non-empty arguments, joined by a slash, normalized. *)
Definition join (args : list string) : string :=
  match filter (fun a => negb (a =? "")) args with
  | [] => "."
  | a :: r => normalize (fold_left (fun joined arg => joined +:+ "/" +:+ arg) r a)
  end.

(** [path.dirname]: trailing slashes and the last segment are cut off;
    the scan stops at index 1, so the first character is kept. *)
Fixpoint dropWhile (f : ascii -> bool) (l : list ascii) : list ascii :=
  match l with
  | c :: l' => if f c then dropWhile f l' else l
  | [] => []
  end.

Definition dirname (p : string) : string :=
  match p with
  | "" => "."
  | String c0 rest =>
      let hasRoot := Ascii.eqb c0 slash in
      let isSlash := fun c => Ascii.eqb c slash in
      let r := rev (list_ascii_of_string rest) in
      match dropWhile (fun c => negb (isSlash c)) (dropWhile isSlash r) with
      | [] => if hasRoot then "/" else "."
      | _ :: before =>
          match before with
          | [] => if hasRoot then "//" else String c0 ""
          | _ => String c0 (string_of_list_ascii (rev before))
          end
      end
  end.

Fixpoint takeWhile (f : ascii -> bool) (l : list ascii) : list ascii :=
  match l with
  | c :: l' => if f c then c :: takeWhile f l' else []
  | [] => []
  end.

(** [path.basename], without a suffix: trailing slashes are cut off and
    what follows the last slash before them is kept. *)
Definition basename (p : string) : string :=
  let isSlash := fun c => Ascii.eqb c slash in
  let r := dropWhile isSlash (rev (list_ascii_of_string p)) in
  string_of_list_ascii (rev (takeWhile (fun c => negb (isSlash c)) r)).

End path.

(** ** The host: files, the journal of effects, and completions *)

Module Host.

Inductive Node : Type :=
| File (content : string)
| Directory.

(** The two options of [ExecOptions] the code sets; an option that is
    absent from the object is [None]. *)
Record ExecOptions : Type := mkExecOptions {
  silent : option bool;
  ignoreReturnCode : option bool;
}.

(** What the code does to its host, in the order it does it. *)
Inductive Event : Type :=
| ReadFile (file : string)
| MakeDirectory (dir : string)
| RemoveFile (file : string)
| Exec (commandLine : string) (args : option (list string)) (options : ExecOptions).

Record State : Type := mkState {
  files : gmap string Node;
  journal : list Event;
}.

Inductive Exception : Type :=
| Error (message : string)
| SystemError (code : string) (file : string)
| ExecFailure (exitCode : option Z).

(** How a call completes: it returns a value or throws. *)
Inductive Completion (A : Type) : Type :=
| Return (a : A)
| Throw (e : Exception).
Arguments Return {A} a.
Arguments Throw {A} e.

Definition IO (A : Type) : Type := State -> Completion A * State.

Definition ret {A} (a : A) : IO A := fun h => (Return a, h).

Definition throw {A} (e : Exception) : IO A := fun h => (Throw e, h).

Definition bind {A B} (m : IO A) (k : A -> IO B) : IO B :=
  fun h =>
    match m h with
    | (Return a, h') => k a h'
    | (Throw e, h') => (Throw e, h')
    end.

Definition record (e : Event) (h : State) : State :=
  mkState (files h) (journal h ++ [e]).

(** *** [node:fs] *)

(** Symbolic links are not part of this model of the files: a link that
    resolves stands for the node it resolves to, and a link that does not
    resolve is not represented.  Nothing below is stated about the code
    of a failure to make a directory for that reason. *)
Definition existsSync (p : string) : IO bool :=
  fun h => (Return (bool_decide (is_Some (files h !! p))), h).

(** Decoding as ['ascii'] clears the high bit of every byte. *)
Definition ascii7 (c : ascii) : ascii :=
  match c with
  | Ascii b0 b1 b2 b3 b4 b5 b6 _ => Ascii b0 b1 b2 b3 b4 b5 b6 false
  end.

Fixpoint decodeAscii (s : string) : string :=
  match s with
  | "" => ""
  | String c s' => String (ascii7 c) (decodeAscii s')
  end.

(** [readFileSync(p, 'ascii')] *)
Definition readFileSync (p : string) : IO string :=
  fun h =>
    let h' := record (ReadFile p) h in
    match files h !! p with
    | Some (File content) => (Return (decodeAscii content), h')
    | Some Directory => (Throw (SystemError "EISDIR" p), h')
    | None => (Throw (SystemError "ENOENT" p), h')
    end.

(** [rmSync(p)], without [recursive] or [force] *)
Definition rmSync (p : string) : IO unit :=
  fun h =>
    let h' := record (RemoveFile p) h in
    match files h !! p with
    | Some (File _) => (Return tt, mkState (delete p (files h')) (journal h'))
    | Some Directory => (Throw (SystemError "ERR_FS_EISDIR" p), h')
    | None => (Throw (SystemError "ENOENT" p), h')
    end.

(** Why nothing can be made under [a], which is not a directory: the
    nearest of [a] and the directories above it that is there decides.  A
    regular file on the way gives [ENOTDIR], anything else [ENOENT].
    [fuel] bounds the climb; the length of the path is enough. *)
Fixpoint parentFailure (fuel : nat) (nodes : gmap string Node) (a : string)
  : string :=
  match nodes !! a with
  | Some (File _) => "ENOTDIR"
  | Some Directory => "ENOENT"
  | None =>
      match fuel with
      | O => "ENOENT"
      | S fuel' =>
          if path.dirname a =? a then "ENOENT"
          else parentFailure fuel' nodes (path.dirname a)
      end
  end.

(** [mkdirSync(p)], without [recursive]: the directory that is to
    contain [p] has to be there. *)
Definition mkdirSync (p : string) : IO unit :=
  fun h =>
    let h' := record (MakeDirectory p) h in
    match files h !! p with
    | Some _ => (Throw (SystemError "EEXIST" p), h')
    | None =>
        match files h !! path.dirname p with
        | Some Directory =>
            (Return tt, mkState (<[p := Directory]> (files h')) (journal h'))
        | _ =>
            (Throw (SystemError
                      (parentFailure (String.length p) (files h) (path.dirname p))
                      p),
             h')
        end
    end.

(** The statement [if (!existsSync(dir)) mkdirSync(dir)], named for the
    lemmas about it. *)
Definition ensureDirectory (dir : string) : IO unit :=
  bind (existsSync dir)
    (fun present => if negb present then mkdirSync dir else ret tt).

(** Between [h] and [h'] nothing happened but the making of some of the
    directories [dirs]: every node is as it was, what is new is one of
    [dirs] and a directory, and the journal has grown by the making of
    some of them. *)
Definition madeOnly (dirs : list string) (h h' : State) : Prop :=
  (forall p n, files h !! p = Some n -> files h' !! p = Some n)
  /\ (forall p, files h !! p = None -> is_Some (files h' !! p) ->
      In p dirs /\ files h' !! p = Some Directory)
  /\ (exists made,
        journal h' = journal h ++ map MakeDirectory made /\ incl made dirs).

(** *** [@actions/exec] *)

(** What becomes of the child process: it cannot be started, or it
    exits with a code. *)
Inductive Child : Type :=
| LaunchFailed
| Exited (code : Z).

(** The processes of the host: the fate of a command line, given what
    has happened so far. *)
Definition Spawn : Type := State -> string -> option (list string) -> Child.

Definition isTrue (o : option bool) : bool :=
  match o with Some b => b | None => false end.

(** [exec(commandLine, args, options)] resolves to the exit code; it
    rejects when the process cannot be started, and when it exits with
    a code other than 0 unless [options.ignoreReturnCode] is set. *)
Definition exec (spawn : Spawn) (commandLine : string)
    (args : option (list string)) (options : ExecOptions) : IO Z :=
  fun h =>
    let h' := record (Exec commandLine args options) h in
    match spawn h commandLine args with
    | LaunchFailed => (Throw (ExecFailure None), h')
    | Exited code =>
        if (code =? 0)%Z || isTrue (ignoreReturnCode options)
        then (Return code, h')
        else (Throw (ExecFailure (Some code)), h')
    end.

End Host.

Notation "'let!' x ':=' m 'in' k" := (Host.bind m (fun x => k))
  (at level 10, x name, m at level 100, k at level 200).


(** ** action.ts *)

Module Action.

Record RunnerContext : Type := mkRunnerContext {
  runnerTemporaryPath : string;
  githubAction : string;
}.

Definition supportedPlatforms : list string := ["linux"; "win32"; "darwin"].

(** [platform] is [process.platform]. *)
Definition checkCompatibility (platform : string) : Host.IO unit :=
  let currentPlatform := platform in
  if negb (Js.includes supportedPlatforms currentPlatform)
  then Host.throw (Host.Error ("Currently " +:+ currentPlatform +:+ "-platform is not supported"))
  else Host.ret tt.

(** What the module reads of its process: the environment, the working
    directory, the process id, and [__filename], the path of the file the
    module is loaded from ([__dirname] is its directory). *)
Record Process : Type := mkProcess {
  env : gmap string string;
  cwd : string;
  pid : nat;
  filename : string;
}.

Definition isRunningLocally (process : Process) : bool :=
  bool_decide (env process !! "RUNNER_WORKSPACE" = None).

Definition isRunningFromSource (process : Process) : bool :=
  path.basename (path.dirname (filename process)) =? "model".

Definition canonicalName (process : Process) : string :=
  if isRunningFromSource process then
    path.basename
      (path.dirname (path.join [path.dirname (filename process); "/.."]))
  else "unity-builder".

Definition rootFolder (process : Process) : string :=
  if isRunningFromSource process then
    path.dirname (path.dirname (path.dirname (filename process)))
  else path.dirname (path.dirname (filename process)).

Definition actionFolder (process : Process) : string :=
  rootFolder process +:+ "/dist".

(** [process.env.GITHUB_WORKSPACE!]: the assertion is erased, the value
    may be undefined. *)
Definition workspace (process : Process) : option string :=
  env process !! "GITHUB_WORKSPACE".

(** [a ?? b] falls back to [b] only when [a] is undefined. *)
Definition runnerContext (process : Process) : RunnerContext :=
  let runnerTemporaryPath :=
    match env process !! "RUNNER_TEMP" with
    | Some v => v
    | None => cwd process
    end in
  let githubAction :=
    match env process !! "GITHUB_ACTION" with
    | Some v => v
    | None => Js.numberToString (pid process)
    end in
  mkRunnerContext runnerTemporaryPath githubAction.

End Action.

(** ** docker.ts *)

Module Docker.
Import Text Js Host.

(** Modelled from the spec: the declaration of [StringKeyValuePair] in
    shared-types, which is not among the sources, is an additional
    environment pair of a key and a value. *)
Record StringKeyValuePair : Type := mkPair {
  name : string;
  value : string;
}.

(** Modelled from the spec: the declaration of [DockerParameters] in
    shared-types, which is not among the sources.  The fields are those
    the code reads; the SSH agent socket, the public-keys directory, the
    private token and the isolation mode are optional, the others are
    texts.  It has the fields of a [RunnerContext], which is why
    [ensureContainerRemoval] can hand its context to
    [containerIdFilePath]. *)
Record DockerParameters : Type := mkDockerParameters {
  context :> Action.RunnerContext;
  workspace : string;
  actionFolder : string;
  runnerTempPath : string;
  sshAgent : option string;
  sshPublicKeysDirectoryPath : option string;
  gitPrivateToken : option string;
  dockerWorkspacePath : string;
  dockerCpuLimit : string;
  dockerMemoryLimit : string;
  dockerIsolationMode : option string;
}.

(** The path of the file of [docker run --cidfile]. *)
Definition containerIdFilePath (parameters : Action.RunnerContext) : string :=
  path.join [Action.runnerTemporaryPath parameters;
             "container_" +:+ Action.githubAction parameters].

(** A backslash at the end of a line of a template literal joins the
    line to the next one: between two lines of the command stand the
    blank before the backslash and the twelve blanks of the
    indentation. *)
Definition continuation : string := " " +:+ "            ".

Definition lines (first : list Piece) (rest : list (list Piece)) : list Piece :=
  first ++ flat_map (fun l => Lit continuation :: l) rest.

Definition quoted (s : string) : string := quote +:+ s +:+ quote.

Section Collaborators.

(** [ImageEnvironmentFactory.getEnvVarString], which is not among the
    sources: the text of the environment options, for the parameters and
    the additional pairs, which the Windows path leaves out. *)
Variable getEnvVarString :
  DockerParameters -> option (list StringKeyValuePair) -> string.

(** The processes [exec] starts. *)
Variable spawn : Spawn.

Definition ensureContainerRemoval (parameters : Action.RunnerContext) : IO unit :=
  let cidfile := containerIdFilePath parameters in
  let! present := existsSync cidfile in
  if negb present then ret tt
  else
    let! content := readFileSync cidfile in
    let container := trim content in
    let! _ := exec spawn "docker"
                (Some ["exec"; container; "/bin/bash"; "-c"; "/cleanup.sh"])
                (mkExecOptions (Some false) None) in
    let! _ := exec spawn "docker"
                (Some ["rm"; "--force"; "--volumes"; container])
                (mkExecOptions (Some true) None) in
    rmSync cidfile.

Definition commandPrefix (image : string) : string :=
  if image =? "alpine" then "/bin/sh" else "/bin/bash".

(** The template literal of [getLinuxCommand], line by line: first
    the options of [docker run], then what is run (the entrypoint,
    the image, the shell and the command).  [Lit] is text the code
    fixes, [Ins] a value that comes from the arguments or from
    [getEnvVarString]. *)
Definition linuxOptions (parameters : DockerParameters)
    (additionalVariables : list StringKeyValuePair) : list (list Piece) :=
  let githubHome := path.join [runnerTempPath parameters; "_github_home"] in
  let githubWorkflow := path.join [runnerTempPath parameters; "_github_workflow"] in
  let cidfile := containerIdFilePath parameters in
  [ [Lit "--workdir "; Ins (dockerWorkspacePath parameters)];
    [Lit "--cidfile="; Ins cidfile];
    [Lit "--rm"];
    [Ins (getEnvVarString parameters (Some additionalVariables))];
    [Lit "--env GITHUB_WORKSPACE="; Ins (dockerWorkspacePath parameters)];
    [Lit "--env GIT_CONFIG_EXTENSIONS"];
    whenever (truthy (gitPrivateToken parameters))
      [Lit ("--env GIT_PRIVATE_TOKEN=" +:+ quote);
       Ins (str (gitPrivateToken parameters)); Lit quote];
    whenever (truthy (sshAgent parameters))
      [Lit "--env SSH_AUTH_SOCK=/ssh-agent"];
    [Lit ("--volume " +:+ quote); Ins githubHome;
     Lit (quote +:+ ":" +:+ quoted "/root:z")];
    [Lit ("--volume " +:+ quote); Ins githubWorkflow;
     Lit (quote +:+ ":" +:+ quoted "/github/workflow:z")];
    [Lit ("--volume " +:+ quote); Ins (workspace parameters);
     Lit (quote +:+ ":" +:+ quote); Ins (dockerWorkspacePath parameters);
     Lit (":z" +:+ quote)];
    [Lit ("--volume " +:+ quote); Ins (actionFolder parameters);
     Lit ("/default-build-script:/UnityBuilderAction:z" +:+ quote)];
    [Lit ("--volume " +:+ quote); Ins (actionFolder parameters);
     Lit ("/platforms/ubuntu/steps:/steps:z" +:+ quote)];
    [Lit ("--volume " +:+ quote); Ins (actionFolder parameters);
     Lit ("/platforms/ubuntu/entrypoint.sh:/entrypoint.sh:z" +:+ quote)];
    [Lit ("--volume " +:+ quote); Ins (actionFolder parameters);
     Lit ("/unity-config:/usr/share/unity3d/config/:z" +:+ quote)];
    [Lit ("--volume " +:+ quote); Ins (actionFolder parameters);
     Lit ("/BlankProject" +:+ quote +:+ ":" +:+ quoted "/BlankProject:z")];
    [Lit "--cpus="; Ins (dockerCpuLimit parameters)];
    [Lit "--memory="; Ins (dockerMemoryLimit parameters)];
    whenever (truthy (sshAgent parameters))
      [Lit "--volume "; Ins (str (sshAgent parameters)); Lit ":/ssh-agent"];
    whenever (truthy (sshAgent parameters)
              && negb (truthy (sshPublicKeysDirectoryPath parameters)))
      [Lit "--volume /home/runner/.ssh/known_hosts:/root/.ssh/known_hosts:ro"];
    whenever (truthy (sshPublicKeysDirectoryPath parameters))
      [Lit "--volume "; Ins (str (sshPublicKeysDirectoryPath parameters));
       Lit ":/root/.ssh:ro"] ].

Definition linuxInvocation (image overrideCommands : string)
    (entrypointBash : bool) : list (list Piece) :=
  [ whenever entrypointBash [Lit "--entrypoint "; Lit (commandPrefix image)];
    [Ins image];
    (if entrypointBash then [Lit "-c"]
     else [Lit (commandPrefix image); Lit " -c"]);
    [Lit quote;
     (if negb (overrideCommands =? "") then Ins overrideCommands
      else Lit "/entrypoint.sh");
     Lit quote] ].

Definition linuxTemplate (image : string) (parameters : DockerParameters)
    (overrideCommands : string) (additionalVariables : list StringKeyValuePair)
    (entrypointBash : bool) : list Piece :=
  lines [Lit "docker run"]
    (linuxOptions parameters additionalVariables
     ++ linuxInvocation image overrideCommands entrypointBash).

Definition getLinuxCommand (image : string) (parameters : DockerParameters)
    (overrideCommands : string) (additionalVariables : list StringKeyValuePair)
    (entrypointBash : bool) : IO string :=
  let githubHome := path.join [runnerTempPath parameters; "_github_home"] in
  let! homeExists := existsSync githubHome in
  let! _ := (if negb homeExists then mkdirSync githubHome else ret tt) in
  let githubWorkflow := path.join [runnerTempPath parameters; "_github_workflow"] in
  let! workflowExists := existsSync githubWorkflow in
  let! _ := (if negb workflowExists then mkdirSync githubWorkflow else ret tt) in
  ret (render (linuxTemplate image parameters overrideCommands
                 additionalVariables entrypointBash)).

(** The template literal of [getWindowsCommand]. *)
Definition windowsTemplate (image : string) (parameters : DockerParameters)
  : list Piece :=
  lines [Lit "docker run"]
    [ [Lit "--workdir c:"; Ins (dockerWorkspacePath parameters)];
      [Lit "--rm"];
      [Ins (getEnvVarString parameters None)];
      [Lit "--env GITHUB_WORKSPACE=c:"; Ins (dockerWorkspacePath parameters)];
      whenever (truthy (gitPrivateToken parameters))
        [Lit ("--env GIT_PRIVATE_TOKEN=" +:+ quote);
         Ins (str (gitPrivateToken parameters)); Lit quote];
      [Lit ("--volume " +:+ quote); Ins (workspace parameters);
       Lit (quote +:+ ":" +:+ quote +:+ "c:"); Ins (dockerWorkspacePath parameters);
       Lit quote];
      [Lit ("--volume " +:+ quoted "c:/regkeys" +:+ ":" +:+ quoted "c:/regkeys")];
      [Lit ("--volume " +:+ quoted "C:/Program Files/Microsoft Visual Studio"
            +:+ ":" +:+ quoted "C:/Program Files/Microsoft Visual Studio")];
      [Lit ("--volume " +:+ quoted "C:/Program Files (x86)/Microsoft Visual Studio"
            +:+ ":" +:+ quoted "C:/Program Files (x86)/Microsoft Visual Studio")];
      [Lit ("--volume " +:+ quoted "C:/Program Files (x86)/Windows Kits"
            +:+ ":" +:+ quoted "C:/Program Files (x86)/Windows Kits")];
      [Lit ("--volume " +:+ quoted "C:/ProgramData/Microsoft/VisualStudio"
            +:+ ":" +:+ quoted "C:/ProgramData/Microsoft/VisualStudio")];
      [Lit ("--volume " +:+ quote); Ins (actionFolder parameters);
       Lit ("/default-build-script" +:+ quote +:+ ":" +:+ quoted "c:/UnityBuilderAction")];
      [Lit ("--volume " +:+ quote); Ins (actionFolder parameters);
       Lit ("/platforms/windows" +:+ quote +:+ ":" +:+ quoted "c:/steps")];
      [Lit ("--volume " +:+ quote); Ins (actionFolder parameters);
       Lit ("/unity-config" +:+ quote +:+ ":" +:+ quoted "C:/ProgramData/Unity/config")];
      [Lit ("--volume " +:+ quote); Ins (actionFolder parameters);
       Lit ("/BlankProject" +:+ quote +:+ ":" +:+ quoted "c:/BlankProject")];
      [Lit "--cpus="; Ins (dockerCpuLimit parameters)];
      [Lit "--memory="; Ins (dockerMemoryLimit parameters)];
      [Lit "--isolation="; Ins (str (dockerIsolationMode parameters))];
      [Ins image];
      [Lit "powershell c:/steps/entrypoint.ps1"] ].

Definition getWindowsCommand (image : string) (parameters : DockerParameters)
  : string :=
  render (windowsTemplate image parameters).

(** [platform] is [process.platform]. *)
Definition run (platform : string) (image : string)
    (parameters : DockerParameters) (silent : bool)
    (overrideCommands : string) (additionalVariables : list StringKeyValuePair)
    (options : ExecOptions) (entrypointBash : bool) : IO Z :=
  let! runCommand :=
    (if platform =? "linux" then
       getLinuxCommand image parameters overrideCommands additionalVariables
         entrypointBash
     else if platform =? "win32" then
       ret (getWindowsCommand image parameters)
     else
       throw (Error ("Operation system, " +:+ platform +:+ ", is not supported yet."))) in
  let options := mkExecOptions (Some silent) (ignoreReturnCode options) in
  let options := mkExecOptions (Host.silent options) (Some true) in
  exec spawn runCommand None options.

End Collaborators.

End Docker.

(** ** The sentences of the specification that the code is compared with *)

Module Spec.
Import Js Host.

(** "reads the file's content and trims trailing whitespace to obtain
    the container instance id, executes the in-container cleanup script
    against that id (non-silent), then force-removes that container
    including its volumes, and finally deletes the identity file" *)
Definition removalSteps (cidfile content : string) : list Event :=
  let container := trimEnd content in
  [ ReadFile cidfile;
    Exec "docker" (Some ["exec"; container; "/bin/bash"; "-c"; "/cleanup.sh"])
      (mkExecOptions (Some false) None);
    Exec "docker" (Some ["rm"; "--force"; "--volumes"; container])
      (mkExecOptions (Some true) None);
    RemoveFile cidfile ].

(** "Path = <temporaryDirectoryPath>/container_<runIdentifier>" *)
Definition identityFilePath (temporaryDirectoryPath runIdentifier : string)
  : string :=
  temporaryDirectoryPath +:+ "/container_" +:+ runIdentifier.

End Spec.

(** ** Hosts, processes and parameters to run the code on *)

Module Sample.
Import Host Docker.

Definition runner : Action.RunnerContext :=
  Action.mkRunnerContext "/tmp" "run1".

Definition hostWith (l : list (string * Node)) : State :=
  mkState (list_to_map l) [].

(** A runner whose temporary directory holds no identity file. *)
Definition clean : State := hostWith [("/tmp", Directory)].

(** The runtime has written the instance id [abc123]. *)
Definition leftover : State :=
  hostWith [("/tmp", Directory); ("/tmp/container_run1", File "abc123")].

(** An identity file whose content starts with a blank. *)
Definition leftoverBlank : State :=
  hostWith [("/tmp", Directory); ("/tmp/container_run1", File " abc123")].

(** The two auxiliary directories are there already. *)
Definition prepared : State :=
  hostWith [("/tmp", Directory); ("/tmp/_github_home", Directory);
            ("/tmp/_github_workflow", Directory)].

(** Every process exits with code 0. *)
Definition allSucceed : Spawn := fun _ _ _ => Exited 0.

(** Every process exits with the given code. *)
Definition allExit (code : Z) : Spawn := fun _ _ _ => Exited code.

(** [docker exec] exits with code 1, as it does when the container is
    gone or its cleanup script fails; everything else succeeds. *)
Definition cleanupFails : Spawn :=
  fun _ _ args =>
    match args with
    | Some (verb :: _) => if verb =? "exec" then Exited 1 else Exited 0
    | _ => Exited 0
    end.

Definition noVariables (_ : DockerParameters) (_ : option (list StringKeyValuePair))
  : string := "".

Definition parameters : DockerParameters :=
  mkDockerParameters runner "/github/workspace" "/action" "/tmp"
    None None None "/github/workspace" "2" "4g" (Some "default").

(** A public-keys directory and no SSH agent. *)
Definition keysOnly : DockerParameters :=
  mkDockerParameters runner "/github/workspace" "/action" "/tmp"
    None (Some "/keys") None "/github/workspace" "2" "4g" (Some "default").

Definition agentOnly : DockerParameters :=
  mkDockerParameters runner "/github/workspace" "/action" "/tmp"
    (Some "/run/agent.sock") None None "/github/workspace" "2" "4g" (Some "default").

Definition agentAndKeys : DockerParameters :=
  mkDockerParameters runner "/github/workspace" "/action" "/tmp"
    (Some "/run/agent.sock") (Some "/keys") None "/github/workspace" "2" "4g"
    (Some "default").

(** Nothing is there, not even the temporary directory. *)
Definition bare : State := hostWith [].

(** The identity path is taken by a directory. *)
Definition blocked : State :=
  hostWith [("/tmp", Directory); ("/tmp/container_run1", Directory)].

Definition withToken : DockerParameters :=
  mkDockerParameters runner "/github/workspace" "/action" "/tmp"
    (Some "/run/agent.sock") None (Some "s3cret") "/github/workspace" "2" "4g"
    (Some "default").

(** A regular file where the temporary directory should be. *)
Definition obstructed : State := hostWith [("/tmp", File "")].

(** A run whose temporary directory is the empty text, and a host with
    an identity file in the root directory. *)
Definition unplaced : Action.RunnerContext := Action.mkRunnerContext "" "run1".

Definition misplaced : State :=
  hostWith [("/container_run1", File "abc123")].

(** No token, but a workspace path that carries a token option. *)
Definition leaking : DockerParameters :=
  mkDockerParameters runner "/github/workspace" "/action" "/tmp"
    None None None "/w --env GIT_PRIVATE_TOKEN=leak" "2" "4g" (Some "default").

(** The action run from its sources, and from its bundle. *)
Definition fromSource : Action.Process :=
  Action.mkProcess (list_to_map [("RUNNER_TEMP", "/home/runner/work/_temp");
                                 ("GITHUB_ACTION", "__self")])
    "/home/runner/work/repo" 4321 "/opt/unity-builder/src/model/action.ts".

Definition bundled : Action.Process :=
  Action.mkProcess ∅ "/work" 4321 "/opt/unity-builder/dist/index.js".

End Sample.

(** * Facts *)

(** ** Searching in a rendered template *)

#[local] Arguments String.append : simpl nomatch.

Module TextFacts.
Import Text.

Lemma append_assoc (a b c : string) : (a +:+ b) +:+ c = a +:+ b +:+ c.
Proof. induction a as [|x a IH]; simpl; [reflexivity | now f_equal]. Qed.

Lemma append_empty_r (a : string) : a +:+ "" = a.
Proof. induction a as [|x a IH]; simpl; [reflexivity | now f_equal]. Qed.

Lemma starts_with_empty (n : string) :
  starts_with n "" = true -> n = "".
Proof. destruct n; simpl; [reflexivity | discriminate]. Qed.

Lemma starts_with_app (n r : string) : starts_with n (n +:+ r) = true.
Proof.
  induction n as [|c n IH]; simpl; [reflexivity|].
  rewrite Ascii.eqb_refl. exact IH.
Qed.

Lemma starts_with_weaken (n a b : string) :
  starts_with n a = true -> starts_with n (a +:+ b) = true.
Proof.
  revert a. induction n as [|c n IH]; intros a H; simpl in *; [reflexivity|].
  destruct a as [|d a]; simpl in *; [discriminate|].
  apply andb_true_iff in H as [H1 H2]. rewrite H1. simpl. auto.
Qed.

Lemma occurs_app_l (n a b : string) :
  occurs n a = true -> occurs n (a +:+ b) = true.
Proof.
  induction a as [|c a IH]; simpl; intros H.
  - apply starts_with_empty in H. subst n. destruct b; reflexivity.
  - apply orb_true_iff in H as [H|H].
    + change (String c (a +:+ b)) with (String c a +:+ b).
      rewrite (starts_with_weaken _ _ _ H). reflexivity.
    + rewrite (IH H). apply orb_true_r.
Qed.

Lemma occurs_app_r (n a b : string) :
  occurs n b = true -> occurs n (a +:+ b) = true.
Proof.
  intros H. induction a as [|c a IH]; simpl; [exact H|].
  rewrite IH. apply orb_true_r.
Qed.

Lemma occurs_here (n r : string) : occurs n (n +:+ r) = true.
Proof.
  destruct n as [|c n]; simpl.
  - destruct r; reflexivity.
  - rewrite Ascii.eqb_refl. simpl. rewrite starts_with_app. reflexivity.
Qed.

Lemma occurs_middle (n a b : string) : occurs n (a +:+ n +:+ b) = true.
Proof. apply occurs_app_r, occurs_here. Qed.

Lemma render_app (a b : list Piece) :
  render (a ++ b) = render a +:+ render b.
Proof.
  induction a as [|p a IH]; simpl; [reflexivity|].
  rewrite IH. symmetry. apply append_assoc.
Qed.

(** A run of pieces of the template shows in its text. *)
Lemma occurs_render_run (a m b : list Piece) :
  occurs (render m) (render (a ++ m ++ b)) = true.
Proof. rewrite !render_app. apply occurs_middle. Qed.

Lemma occurs_has_run (m t : list Piece) :
  has_run m t -> occurs (render m) (render t) = true.
Proof.
  induction t as [|p t IH]; cbn [has_run].
  - intros ->. reflexivity.
  - intros [[rest ->] | H].
    + rewrite render_app. apply occurs_here.
    + change (render (p :: t)) with (text p +:+ render t).
      apply occurs_app_r, IH, H.
Qed.

(** The text of a run of pieces, given as the text it renders to. *)
Lemma occurs_run (n : string) (m t : list Piece) :
  render m = n -> has_run m t -> occurs n (render t) = true.
Proof. intros <-. apply occurs_has_run. Qed.

(** A match that starts inside a chunk that closes stays inside. *)
Lemma starts_with_closed (s n r : string) :
  strict_prefix s n = false -> starts_with n (s +:+ r) = starts_with n s.
Proof.
  revert n. induction s as [|c s IH]; intros [|d n] H; simpl in *;
    try reflexivity; try discriminate.
  destruct (Ascii.eqb d c) eqn:E; simpl; [|reflexivity].
  apply IH. rewrite Ascii.eqb_sym in E. rewrite E in H. exact H.
Qed.

Lemma occurs_app_closes (n l r : string) :
  n <> "" -> closes n l = true ->
  occurs n (l +:+ r) = occurs n l || occurs n r.
Proof.
  intros Hn. induction l as [|c l IH]; intros H.
  - simpl. destruct n; [congruence | reflexivity].
  - cbn [closes] in H. apply andb_true_iff in H as [H1 H2].
    apply negb_true_iff in H1.
    change (String c l +:+ r) with (String c (l +:+ r)).
    cbn [occurs].
    change (String c (l +:+ r)) with (String c l +:+ r).
    rewrite (starts_with_closed _ _ _ H1), (IH H2).
    now rewrite orb_assoc.
Qed.

Lemma clash_blocks (m l r : string) :
  clash m l = true -> starts_with m (l +:+ r) = false.
Proof.
  revert l. induction m as [|c m IH]; intros [|d l] H; simpl in *;
    try discriminate.
  destruct (Ascii.eqb c d); simpl; [auto | reflexivity].
Qed.

Lemma starts_with_opened (m a l r : string) :
  suffixes_clash m l = true ->
  starts_with m (a +:+ l +:+ r) = starts_with m a.
Proof.
  revert m. induction a as [|x a IH]; intros m H.
  - simpl. destruct m as [|c m]; [reflexivity|].
    cbn [suffixes_clash] in H. apply andb_true_iff in H as [H _].
    now apply clash_blocks.
  - destruct m as [|c m]; [reflexivity|]. simpl.
    cbn [suffixes_clash] in H. apply andb_true_iff in H as [_ H].
    now rewrite IH.
Qed.

Lemma occurs_app_opens (n a l r : string) :
  n <> "" -> opens n l = true ->
  occurs n (a +:+ l +:+ r) = occurs n a || occurs n (l +:+ r).
Proof.
  intros Hn H. destruct n as [|c m]; [congruence|]. cbn [opens] in H.
  induction a as [|x a IH]; [reflexivity|].
  change (String x a +:+ l +:+ r) with (String x (a +:+ l +:+ r)).
  cbn [occurs starts_with].
  rewrite (starts_with_opened _ _ _ _ H), IH.
  now rewrite orb_assoc.
Qed.

(** In the text of a guarded template the needle occurs exactly when
    it occurs in one of the pieces. *)
Lemma occurs_render (n : string) (t : list Piece) :
  n <> "" -> guarded n t = true ->
  occurs n (render t) = existsb (occurs n) (map text t).
Proof.
  intros Hn. induction t as [|p t IH]; intros H.
  - simpl. destruct n; [congruence | reflexivity].
  - destruct p as [l|i]; cbn [guarded] in H;
      apply andb_true_iff in H as [H1 H2]; cbn [render fold_right map existsb text].
    + fold (render t). rewrite (occurs_app_closes _ _ _ Hn H1), (IH H2).
      reflexivity.
    + fold (render t). destruct t as [|[l|j] t]; try discriminate.
      * simpl. rewrite append_empty_r.
        destruct n; [congruence|]. now rewrite orb_false_r.
      * cbn [render fold_right text]. fold (render t).
        rewrite (occurs_app_opens _ _ _ _ Hn H1).
        f_equal. apply (IH H2).
Qed.

Lemma existsb_pieces (f : string -> bool) (t : list Piece) :
  existsb f (map text t) = existsb f (literals t) || existsb f (interpolated t).
Proof.
  induction t as [|[l|i] t IH]; simpl; [reflexivity| |].
  - rewrite IH. now rewrite orb_assoc.
  - rewrite IH. unfold interpolated, literals.
    destruct (f i), (existsb f (flat_map _ t)); reflexivity.
Qed.

Lemma render_fuse (t : list Piece) : render (fuse t) = render t.
Proof.
  induction t as [|[a|x] t IH]; cbn [fuse]; [reflexivity| |].
  - change (render (Lit a :: t)) with (a +:+ render t). rewrite <- IH.
    destruct (fuse t) as [|[b|y] r]; try reflexivity.
    cbn [render fold_right text]. now rewrite append_assoc.
  - change (render (Ins x :: t)) with (x +:+ render t). now rewrite <- IH.
Qed.

Lemma interpolated_fuse (t : list Piece) :
  interpolated (fuse t) = interpolated t.
Proof.
  induction t as [|[a|x] t IH]; cbn [fuse]; [reflexivity| |].
  - change (interpolated (Lit a :: t)) with (interpolated t). rewrite <- IH.
    destruct (fuse t) as [|[b|y] r]; reflexivity.
  - change (interpolated (Ins x :: t)) with (x :: interpolated t).
    now rewrite <- IH.
Qed.

(** The form used below: when no literal text of the template holds
    the needle, it occurs in the text exactly when an interpolated
    value holds it. *)
Lemma occurs_interpolated (n : string) (t : list Piece) :
  n <> "" -> guarded n (fuse t) = true ->
  existsb (occurs n) (literals (fuse t)) = false ->
  occurs n (render t) = existsb (occurs n) (interpolated t).
Proof.
  intros Hn Hg Hl.
  rewrite <- render_fuse, <- interpolated_fuse.
  now rewrite occurs_render, existsb_pieces, Hl.
Qed.

End TextFacts.

(** ** Joining a plain segment to a path in normal form *)

Module PathFacts.
Import Text TextFacts.

Lemma split_cons (s : string) : exists seg r, path.split s = seg :: r.
Proof.
  induction s as [|c s [seg [r IH]]]; simpl; [now eexists _, _|].
  destruct (Ascii.eqb c path.slash); [now eexists _, _|].
  rewrite IH. now eexists _, _.
Qed.

Lemma split_slash (a b : string) :
  path.split (a +:+ "/" +:+ b) = path.split a ++ path.split b.
Proof.
  change ("/" +:+ b) with (String path.slash b).
  induction a as [|c a IH]; simpl; [reflexivity|].
  destruct (Ascii.eqb c path.slash); rewrite IH; [reflexivity|].
  destruct (split_cons a) as [seg [r ->]]. reflexivity.
Qed.

Lemma occurs_slash_cons (c : ascii) (s : string) :
  occurs "/" (String c s) = Ascii.eqb path.slash c || occurs "/" s.
Proof. simpl. now rewrite andb_true_r. Qed.

Lemma split_plain (s : string) :
  occurs "/" s = false -> path.split s = [s].
Proof.
  induction s as [|c s IH]; [reflexivity|].
  rewrite occurs_slash_cons. intros H. apply orb_false_iff in H as [H1 H2].
  simpl. rewrite Ascii.eqb_sym, H1, (IH H2). reflexivity.
Qed.

Lemma concat_snoc (sep x y : string) (l : list string) :
  String.concat sep ((y :: l) ++ [x]) = String.concat sep (y :: l) +:+ sep +:+ x.
Proof.
  revert y. induction l as [|z l IH]; intros y; [reflexivity|].
  change (String.concat sep ((y :: z :: l) ++ [x]))
    with (y +:+ sep +:+ String.concat sep ((z :: l) ++ [x])).
  rewrite IH.
  change (String.concat sep (y :: z :: l))
    with (y +:+ sep +:+ String.concat sep (z :: l)).
  now rewrite !append_assoc.
Qed.

Lemma last_char_app (a : string) (c : ascii) (b : string) :
  last_char (a +:+ String c b) = last_char (String c b).
Proof.
  induction a as [|x a IH]; [reflexivity|].
  change (String x a +:+ String c b) with (String x (a +:+ String c b)).
  cbn [last_char]. rewrite IH.
  destruct a; reflexivity.
Qed.

Lemma last_char_plain (s : string) (c : ascii) :
  occurs "/" s = false -> last_char s = Some c -> Ascii.eqb c path.slash = false.
Proof.
  induction s as [|x s IH]; [discriminate|].
  rewrite occurs_slash_cons. intros H. apply orb_false_iff in H as [H1 H2].
  destruct s as [|y s].
  - simpl. intros [= <-]. now rewrite Ascii.eqb_sym.
  - intros HL. apply (IH H2). exact HL.
Qed.

Lemma starts_with_slash_app (c : ascii) (a b : string) :
  path.isAbsolute (String c a +:+ b) = path.isAbsolute (String c a).
Proof. reflexivity. Qed.

Lemma append_nonempty (a b : string) : b <> "" -> (a +:+ b =? "") = false.
Proof.
  intros H. destruct a; simpl; [|reflexivity].
  destruct b; [congruence | reflexivity].
Qed.

Lemma visit_plain (allow : bool) (res : list string) (seg : string) :
  (seg =? "") = false -> (seg =? ".") = false -> (seg =? "..") = false ->
  path.visit allow res seg = seg :: res.
Proof. intros H1 H2 H3. unfold path.visit. now rewrite H1, H2, H3. Qed.

(** A segment that is neither empty, [.] nor [..] and holds no slash,
    joined to a path in normal form, is appended after a slash. *)
Lemma normalize_snoc (tmp seg : string) :
  tmp <> "" -> tmp <> "." -> path.normalize tmp = tmp ->
  path.trailingSeparator tmp = false ->
  occurs "/" seg = false ->
  (seg =? "") = false -> (seg =? ".") = false -> (seg =? "..") = false ->
  path.normalize (tmp +:+ "/" +:+ seg) = tmp +:+ "/" +:+ seg.
Proof.
  intros Hne Hdot Hnorm Htrail Hplain Hs1 Hs2 Hs3.
  destruct tmp as [|c0 tmp0] eqn:Etmp; [congruence|]. rewrite <- Etmp in *.
  assert (Habs : path.isAbsolute (tmp +:+ "/" +:+ seg) = path.isAbsolute tmp)
    by (rewrite Etmp; reflexivity).
  assert (Hseg : seg <> "") by (intros ->; discriminate).
  assert (Htrail' : path.trailingSeparator (tmp +:+ "/" +:+ seg) = false).
  { unfold path.trailingSeparator.
    destruct seg as [|s0 seg0]; [congruence|].
    change (tmp +:+ "/" +:+ String s0 seg0)
      with (tmp +:+ String "/" (String s0 seg0)).
    rewrite last_char_app.
    change (last_char (String "/" (String s0 seg0)))
      with (last_char (String s0 seg0)).
    destruct (last_char (String s0 seg0)) as [c|] eqn:EL; [|reflexivity].
    now apply (last_char_plain (String s0 seg0)). }
  unfold path.normalize in *.
  assert (E0 : (tmp =? "") = false) by (rewrite Etmp; reflexivity).
  assert (E1 : (tmp +:+ "/" +:+ seg =? "") = false) by (rewrite Etmp; reflexivity).
  rewrite E0 in Hnorm. rewrite E1, Habs, Htrail'. rewrite Htrail in Hnorm.
  unfold path.normalizeString in *.
  rewrite split_slash, (split_plain seg Hplain), fold_left_app.
  set (allow := negb (path.isAbsolute tmp)) in *.
  set (st := fold_left (path.visit allow) (path.split tmp) []) in *.
  cbn [fold_left]. rewrite (visit_plain allow st seg Hs1 Hs2 Hs3).
  cbn [rev].
  destruct (rev st) as [|y l] eqn:Erev.
  - cbn [String.concat] in Hnorm. cbn [String.eqb] in Hnorm.
    destruct (path.isAbsolute tmp).
    + rewrite <- Hnorm in Htrail. discriminate.
    + congruence.
  - rewrite concat_snoc.
    destruct (String.concat "/" (y :: l) =? "") eqn:Ebody.
    + destruct (path.isAbsolute tmp).
      * rewrite <- Hnorm in Htrail. discriminate.
      * congruence.
    + rewrite append_nonempty.
      2:{ intros H. destruct (String.concat "/" (y :: l)); discriminate. }
      rewrite append_empty_r in *.
      rewrite <- Hnorm at 2.
      now rewrite !append_assoc.
Qed.

End PathFacts.

(** ** Completions of the monad *)

Module HostFacts.
Import Host.

Lemma bind_returns {A B} (m : IO A) (k : A -> IO B) h b h' :
  bind m k h = (Return b, h') ->
  exists a h1, m h = (Return a, h1) /\ k a h1 = (Return b, h').
Proof.
  unfold bind. destruct (m h) as [[a|e] h1]; [|discriminate].
  intros H. now exists a, h1.
Qed.

Lemma bind_step {A B} (m : IO A) (k : A -> IO B) h a h1 :
  m h = (Return a, h1) -> bind m k h = k a h1.
Proof. unfold bind. now intros ->. Qed.

Lemma bind_throws {A B} (m : IO A) (k : A -> IO B) h e h1 :
  m h = (Throw e, h1) -> bind m k h = (Throw e, h1).
Proof. unfold bind. now intros ->. Qed.

Lemma ensureDirectory_present dir h :
  is_Some (files h !! dir) -> ensureDirectory dir h = (Return tt, h).
Proof.
  intros H. unfold ensureDirectory, bind, existsSync.
  now rewrite (bool_decide_eq_true_2 _ H).
Qed.

Lemma ensureDirectory_returns dir h u h' :
  ensureDirectory dir h = (Return u, h') ->
  is_Some (files h' !! dir)
  /\ (forall p, is_Some (files h !! p) -> is_Some (files h' !! p))
  /\ (forall p, files h !! p = Some Directory -> files h' !! p = Some Directory).
Proof.
  unfold ensureDirectory, bind, existsSync.
  destruct (bool_decide (is_Some (files h !! dir))) eqn:E; cbn [negb].
  - intros [= _ <-]. apply bool_decide_eq_true_1 in E. auto.
  - unfold mkdirSync, ret.
    destruct (files h !! dir) eqn:E1; [discriminate|].
    destruct (files h !! path.dirname dir) as [[c|]|] eqn:E2; try discriminate.
    intros [= _ <-]. cbn [files record]. split; [|split].
    + rewrite lookup_insert_eq. eauto.
    + intros p Hp. destruct (decide (dir = p)) as [->|Hne].
      * rewrite lookup_insert_eq. eauto.
      * now rewrite lookup_insert_ne.
    + intros p Hp. destruct (decide (dir = p)) as [->|Hne].
      * now rewrite lookup_insert_eq.
      * now rewrite lookup_insert_ne.
Qed.

Lemma ensureDirectory_creates dir h :
  is_Some (files h !! dir) \/ files h !! path.dirname dir = Some Directory ->
  exists h', ensureDirectory dir h = (Return tt, h').
Proof.
  intros [H|H]; [rewrite (ensureDirectory_present _ _ H); eauto|].
  unfold ensureDirectory, bind, existsSync.
  destruct (bool_decide (is_Some (files h !! dir))) eqn:E; cbn [negb].
  - eauto.
  - apply bool_decide_eq_false_1 in E. unfold mkdirSync.
    destruct (files h !! dir) eqn:E1; [exfalso; eauto|].
    rewrite H. eauto.
Qed.

End HostFacts.

(** ** The command of the Linux path, as a computation *)

Section LinuxCommand.
Import Text TextFacts Host HostFacts Docker.

Variable getEnvVarString :
  DockerParameters -> option (list StringKeyValuePair) -> string.

Lemma getLinuxCommand_unfold image parameters overrideCommands
    additionalVariables entrypointBash h :
  getLinuxCommand getEnvVarString image parameters overrideCommands
    additionalVariables entrypointBash h
  = bind (ensureDirectory (path.join [runnerTempPath parameters; "_github_home"]))
      (fun _ =>
         bind (ensureDirectory
                 (path.join [runnerTempPath parameters; "_github_workflow"]))
           (fun _ =>
              ret (render (linuxTemplate getEnvVarString image parameters
                             overrideCommands additionalVariables
                             entrypointBash)))) h.
Proof.
  unfold getLinuxCommand, ensureDirectory, bind, existsSync.
  repeat match goal with
         | |- context [bool_decide ?P] => destruct (bool_decide P); cbn [negb]
         | |- context [mkdirSync ?d ?s] => destruct (mkdirSync d s) as [[[]|?] ?]
         end; reflexivity.
Qed.

(** A command that [getLinuxCommand] returns is the text of its template. *)
Lemma getLinuxCommand_text image parameters overrideCommands additionalVariables
    entrypointBash h cmd h' :
  getLinuxCommand getEnvVarString image parameters overrideCommands
    additionalVariables entrypointBash h = (Return cmd, h') ->
  cmd = render (linuxTemplate getEnvVarString image parameters overrideCommands
                  additionalVariables entrypointBash).
Proof.
  rewrite getLinuxCommand_unfold. intros H.
  apply bind_returns in H as (_ & h1 & _ & H).
  apply bind_returns in H as (_ & h2 & _ & H).
  now injection H as <- _.
Qed.

(** It returns when each of the two auxiliary directories is there or
    can be made. *)
Lemma getLinuxCommand_returns image parameters overrideCommands
    additionalVariables entrypointBash h :
  let githubHome := path.join [runnerTempPath parameters; "_github_home"] in
  let githubWorkflow := path.join [runnerTempPath parameters; "_github_workflow"] in
  is_Some (files h !! githubHome)
    \/ files h !! path.dirname githubHome = Some Directory ->
  is_Some (files h !! githubWorkflow)
    \/ files h !! path.dirname githubWorkflow = Some Directory ->
  exists h',
    getLinuxCommand getEnvVarString image parameters overrideCommands
      additionalVariables entrypointBash h
    = (Return (render (linuxTemplate getEnvVarString image parameters
                         overrideCommands additionalVariables entrypointBash)),
       h').
Proof.
  intros githubHome githubWorkflow H1 H2. rewrite getLinuxCommand_unfold.
  destruct (ensureDirectory_creates _ _ H1) as [h1 E1].
  rewrite (bind_step _ _ _ _ _ E1).
  apply ensureDirectory_returns in E1 as (_ & Hkeep & Hdir).
  assert (H2' : is_Some (files h1 !! githubWorkflow)
                \/ files h1 !! path.dirname githubWorkflow = Some Directory)
    by (destruct H2; [left | right]; auto).
  destruct (ensureDirectory_creates _ _ H2') as [h2 E2].
  rewrite (bind_step _ _ _ _ _ E2). now exists h2.
Qed.

(** After it has returned once, it returns the same text again and
    leaves the files as they are. *)
Lemma getLinuxCommand_again image parameters overrideCommands
    additionalVariables entrypointBash h cmd h' :
  getLinuxCommand getEnvVarString image parameters overrideCommands
    additionalVariables entrypointBash h = (Return cmd, h') ->
  getLinuxCommand getEnvVarString image parameters overrideCommands
    additionalVariables entrypointBash h' = (Return cmd, h').
Proof.
  intros H. pose proof (getLinuxCommand_text _ _ _ _ _ _ _ _ H) as ->.
  rewrite getLinuxCommand_unfold in H. rewrite getLinuxCommand_unfold.
  apply bind_returns in H as ([] & h1 & E1 & H).
  apply bind_returns in H as ([] & h2 & E2 & H).
  injection H as <-.
  apply ensureDirectory_returns in E1 as (Hhome & _ & _).
  apply ensureDirectory_returns in E2 as (Hflow & Hkeep & _).
  rewrite (bind_step _ _ _ _ _ (ensureDirectory_present _ _ (Hkeep _ Hhome))).
  now rewrite (bind_step _ _ _ _ _ (ensureDirectory_present _ _ Hflow)).
Qed.

Lemma cidfile_in_command image (parameters : DockerParameters) overrideCommands
    additionalVariables entrypointBash :
  occurs ("--cidfile=" +:+ containerIdFilePath parameters)
    (render (linuxTemplate getEnvVarString image parameters overrideCommands
               additionalVariables entrypointBash)) = true.
Proof.
  replace ("--cidfile=" +:+ containerIdFilePath parameters)
    with (render [Lit "--cidfile="; Ins (containerIdFilePath parameters)])
    by (cbn [render fold_right text]; now rewrite append_empty_r).
  apply (occurs_render_run
           [Lit "docker run"; Lit continuation; Lit "--workdir ";
            Ins (dockerWorkspacePath parameters); Lit continuation]).
Qed.

(** The command begins with the working directory, the identity file
    and [--rm], each on its line. *)
Lemma command_head image (parameters : DockerParameters) overrideCommands
    additionalVariables entrypointBash :
  exists rest,
    render (linuxTemplate getEnvVarString image parameters overrideCommands
              additionalVariables entrypointBash)
    = "docker run" +:+ continuation
      +:+ "--workdir " +:+ dockerWorkspacePath parameters +:+ continuation
      +:+ "--cidfile=" +:+ containerIdFilePath parameters +:+ continuation
      +:+ "--rm" +:+ rest.
Proof.
  unfold linuxTemplate, lines, linuxOptions. cbv zeta.
  match goal with
  | |- context [flat_map ?f ((?l1 :: ?l2 :: ?l3 :: ?t) ++ ?i)] =>
      exists (render (flat_map f (t ++ i)));
      change (flat_map f ((l1 :: l2 :: l3 :: t) ++ i))
        with (f l1 ++ f l2 ++ f l3 ++ flat_map f (t ++ i));
      generalize (flat_map f (t ++ i))
  end.
  intros rest. cbn [app]. unfold render. cbn [fold_right text].
  reflexivity.
Qed.

End LinuxCommand.

(** ** The identity file *)

Section IdentityFile.
Import Text TextFacts PathFacts Host HostFacts Docker.

Lemma containerIdFilePath_normalize (ctx : Action.RunnerContext) :
  Action.runnerTemporaryPath ctx <> "" ->
  containerIdFilePath ctx
  = path.normalize (Action.runnerTemporaryPath ctx +:+ "/" +:+ "container_"
                    +:+ Action.githubAction ctx).
Proof.
  intros H. unfold containerIdFilePath, path.join. cbn [filter].
  destruct (Action.runnerTemporaryPath ctx) as [|c tmp]; [congruence|].
  reflexivity.
Qed.

Lemma containerIdFilePath_plain (ctx : Action.RunnerContext) :
  let tmp := Action.runnerTemporaryPath ctx in
  let id := Action.githubAction ctx in
  tmp <> "" -> tmp <> "." -> path.normalize tmp = tmp ->
  path.trailingSeparator tmp = false -> occurs "/" id = false ->
  containerIdFilePath ctx = tmp +:+ "/container_" +:+ id.
Proof.
  intros tmp id H1 H2 H3 H4 H5.
  rewrite containerIdFilePath_normalize by exact H1.
  apply (normalize_snoc tmp ("container_" +:+ id)); auto.
Qed.

End IdentityFile.

(** ** Removing a leftover container *)

Section Removal.
Import Js Host HostFacts Docker.

Variable spawn : Spawn.

Lemma removal_absent (ctx : Action.RunnerContext) h :
  files h !! containerIdFilePath ctx = None ->
  ensureContainerRemoval spawn ctx h = (Return tt, h).
Proof.
  intros H. unfold ensureContainerRemoval, bind, existsSync.
  rewrite bool_decide_eq_false_2; [reflexivity|].
  rewrite H. now intros [x Hx].
Qed.

Lemma removal_present (ctx : Action.RunnerContext) h content :
  files h !! containerIdFilePath ctx = Some (File content) ->
  ensureContainerRemoval spawn ctx h
  = (let cidfile := containerIdFilePath ctx in
     let container := trim (decodeAscii content) in
     let! _ := exec spawn "docker"
                 (Some ["exec"; container; "/bin/bash"; "-c"; "/cleanup.sh"])
                 (mkExecOptions (Some false) None) in
     let! _ := exec spawn "docker"
                 (Some ["rm"; "--force"; "--volumes"; container])
                 (mkExecOptions (Some true) None) in
     rmSync cidfile) (record (ReadFile (containerIdFilePath ctx)) h).
Proof.
  intros H. unfold ensureContainerRemoval.
  unfold bind at 1. unfold existsSync.
  rewrite bool_decide_eq_true_2 by (rewrite H; eauto). cbn [negb].
  unfold bind at 1. unfold readFileSync. now rewrite H.
Qed.

Lemma removal_directory (ctx : Action.RunnerContext) h :
  files h !! containerIdFilePath ctx = Some Directory ->
  exists e h', ensureContainerRemoval spawn ctx h = (Throw e, h').
Proof.
  intros H. unfold ensureContainerRemoval.
  unfold bind at 1. unfold existsSync.
  rewrite bool_decide_eq_true_2 by (rewrite H; eauto). cbn [negb].
  unfold bind at 1. unfold readFileSync. rewrite H. eauto.
Qed.

Lemma exec_returns commandLine args options h code h' :
  exec spawn commandLine args options h = (Return code, h') ->
  h' = record (Exec commandLine args options) h.
Proof.
  unfold exec. destruct (spawn h commandLine args) as [|c]; [discriminate|].
  destruct ((c =? 0)%Z || isTrue (ignoreReturnCode options)); [|discriminate].
  now intros [= _ <-].
Qed.

Lemma exec_zero commandLine args options h :
  spawn h commandLine args = Exited 0 ->
  exec spawn commandLine args options h
  = (Return 0%Z, record (Exec commandLine args options) h).
Proof. unfold exec. now intros ->. Qed.

Lemma rmSync_file p h content :
  files h !! p = Some (File content) ->
  rmSync p h = (Return tt, mkState (delete p (files h)) (journal h ++ [RemoveFile p])).
Proof. unfold rmSync. now intros ->. Qed.

(** With anything at the identity path, the first thing the call does
    is to read it. *)
Lemma removal_reads_first (ctx : Action.RunnerContext) h n :
  files h !! containerIdFilePath ctx = Some n ->
  exists r h' rest,
    ensureContainerRemoval spawn ctx h = (r, h')
    /\ journal h' = journal h ++ ReadFile (containerIdFilePath ctx) :: rest.
Proof.
  intros H. destruct n as [content|].
  - rewrite (removal_present _ _ _ H). cbv zeta. unfold bind, exec.
    repeat match goal with
           | |- context [spawn ?a ?b ?c] => destruct (spawn a b c) as [|?]
           | |- context [(?c =? 0)%Z || ?b] => destruct ((c =? 0)%Z || b)
           end;
      try (eexists _, _, _; split; [reflexivity|];
           cbn [record journal]; rewrite <- ?app_assoc; reflexivity).
    all: rewrite (rmSync_file _ _ content) by exact H.
    all: eexists _, _, _; split; [reflexivity|].
    all: cbn [record journal]; rewrite <- ?app_assoc; reflexivity.
  - unfold ensureContainerRemoval.
    unfold bind at 1. unfold existsSync.
    rewrite bool_decide_eq_true_2 by (rewrite H; eauto). cbn [negb].
    unfold bind at 1. unfold readFileSync. rewrite H.
    now exists (Throw (SystemError "EISDIR" (containerIdFilePath ctx))),
      (record (ReadFile (containerIdFilePath ctx)) h), [].
Qed.

(** When the call returns, the identity file is gone. *)
Lemma removal_returns (ctx : Action.RunnerContext) h h' :
  ensureContainerRemoval spawn ctx h = (Return tt, h') ->
  files h' !! containerIdFilePath ctx = None.
Proof.
  destruct (files h !! containerIdFilePath ctx) as [[content|]|] eqn:E.
  - rewrite (removal_present _ _ _ E). cbv zeta. intros H.
    apply bind_returns in H as (c1 & h1 & E1 & H).
    apply bind_returns in H as (c2 & h2 & E2 & H).
    apply exec_returns in E1, E2. subst h1 h2.
    unfold rmSync in H. cbn [files record] in H. rewrite E in H.
    injection H as <-. cbn [files]. apply lookup_delete_eq.
  - destruct (removal_directory _ _ E) as (e & h1 & ->). discriminate.
  - rewrite (removal_absent _ _ E). now intros [= <-].
Qed.

End Removal.

(** C5, as amended.  The identity-file path is a function of the pair
    (temporary directory, run identifier) alone, as [path.join] computes
    it on a POSIX host: for a non-empty temporary directory it is the
    normal form of [<temporaryDirectoryPath>/container_<runIdentifier>],
    for the empty one it is the normal form of [container_<runIdentifier>],
    a path relative to the working directory.  It is the text
    [<temporaryDirectoryPath>/container_<runIdentifier>] itself when the
    temporary directory is a non-empty path in normal form, other than
    [.], without a trailing slash, and the run identifier holds no slash.
    The command of the Linux path has, on its line after the working
    directory, [--cidfile=] followed by exactly this path, and it is the
    path [ensureContainerRemoval] looks at: with nothing there it does
    nothing, with anything there it starts by reading it. *)
Theorem C5_identity_file_path (ctx : Action.RunnerContext) :
  let tmp := Action.runnerTemporaryPath ctx in
  let id := Action.githubAction ctx in
  let cidfile := Docker.containerIdFilePath ctx in
  (tmp <> "" -> cidfile = path.normalize (Spec.identityFilePath tmp id))
  /\ (tmp = "" -> cidfile = path.normalize ("container_" +:+ id))
  /\ (tmp <> "" -> tmp <> "." -> path.normalize tmp = tmp ->
      path.trailingSeparator tmp = false -> Text.occurs "/" id = false ->
      cidfile = Spec.identityFilePath tmp id)
  /\ (forall getEnvVarString image (parameters : Docker.DockerParameters)
        overrideCommands additionalVariables entrypointBash h cmd h',
        Docker.context parameters = ctx ->
        Docker.getLinuxCommand getEnvVarString image parameters overrideCommands
          additionalVariables entrypointBash h = (Host.Return cmd, h') ->
        exists rest,
          cmd = "docker run" +:+ Docker.continuation
                +:+ "--workdir " +:+ Docker.dockerWorkspacePath parameters
                +:+ Docker.continuation
                +:+ "--cidfile=" +:+ cidfile +:+ Docker.continuation
                +:+ "--rm" +:+ rest)
  /\ (forall spawn h,
        (Host.files h !! cidfile = None ->
         Docker.ensureContainerRemoval spawn ctx h = (Host.Return tt, h))
        /\ (forall n, Host.files h !! cidfile = Some n ->
            exists r h' rest,
              Docker.ensureContainerRemoval spawn ctx h = (r, h')
              /\ Host.journal h'
                 = Host.journal h ++ Host.ReadFile cidfile :: rest)).
Proof.
  intros tmp id cidfile. subst cidfile.
  split; [|split; [|split; [|split]]].
  - now apply containerIdFilePath_normalize.
  - intros H. unfold Docker.containerIdFilePath, path.join. fold tmp.
    rewrite H. reflexivity.
  - intros. now apply containerIdFilePath_plain.
  - intros getEnv image parameters o av eb h cmd h' <- H.
    rewrite (getLinuxCommand_text _ _ _ _ _ _ _ _ _ H).
    apply command_head.
  - intros spawn h. split.
    + now apply removal_absent.
    + now apply removal_reads_first.
Qed.

Lemma C5_identity_file_path_witness :
  "/tmp" <> ""
  /\ Docker.containerIdFilePath Sample.runner = "/tmp/container_run1"
  /\ Docker.containerIdFilePath Sample.unplaced
     = path.normalize "container_run1".
Proof.
  split; [discriminate|].
  destruct (C5_identity_file_path Sample.runner) as (_ & _ & H & _).
  destruct (C5_identity_file_path Sample.unplaced) as (_ & H' & _).
  split.
  - apply H; first [reflexivity | vm_compute; discriminate].
  - apply H'. reflexivity.
Defined.

(** C5, as stated, fails for the empty temporary directory, which
    [RUNNER_TEMP] set to the empty text gives: the path is then
    [container_run1] in the working directory and not [/container_run1]
    in the root directory, and an identity file at the latter is not
    found. *)
Lemma C5_empty_directory_gives_a_relative_path :
  Docker.containerIdFilePath Sample.unplaced = "container_run1"
  /\ Spec.identityFilePath "" "run1" = "/container_run1"
  /\ Docker.containerIdFilePath Sample.unplaced <> Spec.identityFilePath "" "run1"
  /\ Host.files Sample.misplaced !! Spec.identityFilePath "" "run1"
     = Some (Host.File "abc123")
  /\ Docker.ensureContainerRemoval Sample.allSucceed Sample.unplaced
       Sample.misplaced
     = (Host.Return tt, Sample.misplaced).
Proof.
  split; [reflexivity|]. split; [reflexivity|].
  split; [vm_compute; discriminate|]. split; reflexivity.
Qed.


(** C1, as amended.  When the identity file is there and each of the two
    runtime calls exits with code 0, [ensureContainerRemoval] does exactly
    this, in this order: it reads the file, takes its content with the
    white space at both ends removed as the container instance id, runs
    [/cleanup.sh] in that container (not silent), force-removes that
    container with its volumes, and deletes the identity file; then it
    returns. *)
Theorem C1_removal_sequence (spawn : Host.Spawn) (ctx : Action.RunnerContext)
    (h : Host.State) (content : string) :
  let cidfile := Docker.containerIdFilePath ctx in
  let container := Js.trim (Host.decodeAscii content) in
  let cleanup := ["exec"; container; "/bin/bash"; "-c"; "/cleanup.sh"] in
  let removal := ["rm"; "--force"; "--volumes"; container] in
  let read := Host.record (Host.ReadFile cidfile) h in
  let cleaned :=
    Host.record (Host.Exec "docker" (Some cleanup)
                   (Host.mkExecOptions (Some false) None)) read in
  Host.files h !! cidfile = Some (Host.File content) ->
  spawn read "docker" (Some cleanup) = Host.Exited 0 ->
  spawn cleaned "docker" (Some removal) = Host.Exited 0 ->
  Docker.ensureContainerRemoval spawn ctx h
  = (Host.Return tt,
     Host.mkState (delete cidfile (Host.files h))
       (Host.journal h ++
        [ Host.ReadFile cidfile;
          Host.Exec "docker" (Some cleanup) (Host.mkExecOptions (Some false) None);
          Host.Exec "docker" (Some removal) (Host.mkExecOptions (Some true) None);
          Host.RemoveFile cidfile ])).
Proof.
  intros cidfile container cleanup removal read cleaned Hfile Hclean Hremove.
  rewrite (removal_present spawn ctx h content Hfile). cbv zeta.
  rewrite (HostFacts.bind_step _ _ _ _ _ (exec_zero spawn _ _ _ _ Hclean)).
  rewrite (HostFacts.bind_step _ _ _ _ _ (exec_zero spawn _ _ _ _ Hremove)).
  rewrite (rmSync_file _ _ content) by exact Hfile.
  subst cleaned read. cbn [Host.files Host.record Host.journal].
  now rewrite <- !app_assoc.
Qed.

Lemma C1_removal_sequence_witness :
  Host.files Sample.leftover !! Docker.containerIdFilePath Sample.runner
    = Some (Host.File "abc123")
  /\ Host.journal
       (snd (Docker.ensureContainerRemoval Sample.allSucceed Sample.runner
               Sample.leftover))
     = [ Host.ReadFile "/tmp/container_run1";
         Host.Exec "docker" (Some ["exec"; "abc123"; "/bin/bash"; "-c"; "/cleanup.sh"])
           (Host.mkExecOptions (Some false) None);
         Host.Exec "docker" (Some ["rm"; "--force"; "--volumes"; "abc123"])
           (Host.mkExecOptions (Some true) None);
         Host.RemoveFile "/tmp/container_run1" ].
Proof.
  split; [reflexivity|].
  rewrite (C1_removal_sequence Sample.allSucceed Sample.runner Sample.leftover
             "abc123"); reflexivity.
Defined.

(** C1, as stated, fails on an identity file whose content starts with
    white space: [trim] removes it, so the runtime calls name [abc123] and
    not the content with only its trailing white space removed. *)
Lemma C1_leading_white_space_is_trimmed :
  Host.files Sample.leftoverBlank !! Docker.containerIdFilePath Sample.runner
    = Some (Host.File " abc123")
  /\ Docker.ensureContainerRemoval Sample.allSucceed Sample.runner
       Sample.leftoverBlank
     = (Host.Return tt,
        Host.mkState (delete "/tmp/container_run1" (Host.files Sample.leftoverBlank))
          [ Host.ReadFile "/tmp/container_run1";
            Host.Exec "docker"
              (Some ["exec"; "abc123"; "/bin/bash"; "-c"; "/cleanup.sh"])
              (Host.mkExecOptions (Some false) None);
            Host.Exec "docker" (Some ["rm"; "--force"; "--volumes"; "abc123"])
              (Host.mkExecOptions (Some true) None);
            Host.RemoveFile "/tmp/container_run1" ])
  /\ Host.journal
       (snd (Docker.ensureContainerRemoval Sample.allSucceed Sample.runner
               Sample.leftoverBlank))
     <> Spec.removalSteps "/tmp/container_run1" " abc123".
Proof.
  split; [reflexivity|].
  split; [reflexivity|]. vm_compute. discriminate.
Qed.

(** C2, on the code.  The cleanup call is made without
    [ignoreReturnCode]; when the cleanup script exits with code 1, [exec]
    rejects and [ensureContainerRemoval] ends there: the journal holds the
    read and the cleanup call only, no force-removal is attempted, and the
    identity file stays. *)
Theorem C2_cleanup_failure_ends_removal :
  Docker.ensureContainerRemoval Sample.cleanupFails Sample.runner Sample.leftover
  = (Host.Throw (Host.ExecFailure (Some 1%Z)),
     Host.mkState (Host.files Sample.leftover)
       [ Host.ReadFile "/tmp/container_run1";
         Host.Exec "docker"
           (Some ["exec"; "abc123"; "/bin/bash"; "-c"; "/cleanup.sh"])
           (Host.mkExecOptions (Some false) None) ])
  /\ Host.files Sample.leftover !! "/tmp/container_run1"
     = Some (Host.File "abc123").
Proof. split; reflexivity. Qed.

(** The same for every exit code other than 0 and every host. *)
Lemma cleanup_failure_ends_removal (spawn : Host.Spawn)
    (ctx : Action.RunnerContext) (h : Host.State) (content : string) (code : Z) :
  let cidfile := Docker.containerIdFilePath ctx in
  let cleanup :=
    ["exec"; Js.trim (Host.decodeAscii content); "/bin/bash"; "-c"; "/cleanup.sh"] in
  Host.files h !! cidfile = Some (Host.File content) ->
  spawn (Host.record (Host.ReadFile cidfile) h) "docker" (Some cleanup)
    = Host.Exited code ->
  code <> 0%Z ->
  Docker.ensureContainerRemoval spawn ctx h
  = (Host.Throw (Host.ExecFailure (Some code)),
     Host.mkState (Host.files h)
       (Host.journal h ++
        [ Host.ReadFile cidfile;
          Host.Exec "docker" (Some cleanup) (Host.mkExecOptions (Some false) None) ])).
Proof.
  intros cidfile cleanup Hfile Hspawn Hcode.
  rewrite (removal_present spawn ctx h content Hfile). cbv zeta.
  unfold Host.bind at 1. unfold Host.exec at 1. fold cidfile cleanup.
  rewrite Hspawn. apply Z.eqb_neq in Hcode. rewrite Hcode.
  cbn [orb Host.isTrue Host.ignoreReturnCode].
  unfold Host.record. cbn [Host.files Host.journal].
  now rewrite <- !app_assoc.
Qed.

(** C3.  Without an identity file [ensureContainerRemoval] returns and
    leaves the host as it is: nothing is read, no process is started, no
    file is touched.  And after a call that has returned, whatever it
    found, a second call returns and leaves the host as it is. *)
Theorem C3_removal_is_idempotent (spawn spawn' : Host.Spawn)
    (ctx : Action.RunnerContext) (h : Host.State) :
  (Host.files h !! Docker.containerIdFilePath ctx = None ->
   Docker.ensureContainerRemoval spawn ctx h = (Host.Return tt, h))
  /\ (forall h1,
        Docker.ensureContainerRemoval spawn ctx h = (Host.Return tt, h1) ->
        Docker.ensureContainerRemoval spawn' ctx h1 = (Host.Return tt, h1)).
Proof.
  split.
  - apply removal_absent.
  - intros h1 H. apply removal_absent. exact (removal_returns spawn ctx h h1 H).
Qed.

Lemma C3_removal_is_idempotent_witness :
  Host.files Sample.clean !! Docker.containerIdFilePath Sample.runner = None
  /\ Docker.ensureContainerRemoval Sample.allSucceed Sample.runner Sample.clean
     = (Host.Return tt, Sample.clean)
  /\ (let reaped :=
        snd (Docker.ensureContainerRemoval Sample.allSucceed Sample.runner
               Sample.leftover) in
      Docker.ensureContainerRemoval Sample.cleanupFails Sample.runner reaped
      = (Host.Return tt, reaped)).
Proof.
  split; [reflexivity|]. split.
  - apply (proj1 (C3_removal_is_idempotent Sample.allSucceed Sample.allSucceed
                    Sample.runner Sample.clean)).
    reflexivity.
  - apply (proj2 (C3_removal_is_idempotent Sample.allSucceed Sample.cleanupFails
                    Sample.runner Sample.leftover)).
    reflexivity.
Defined.

(** ** The platform dispatch of [run] *)

Section Run.
Import Host HostFacts Docker.

Variable getEnvVarString :
  DockerParameters -> option (list StringKeyValuePair) -> string.
Variable spawn : Spawn.

Lemma run_linux image parameters silent overrideCommands additionalVariables
    options entrypointBash h :
  run getEnvVarString spawn "linux" image parameters silent overrideCommands
    additionalVariables options entrypointBash h
  = (let! runCommand :=
       getLinuxCommand getEnvVarString image parameters overrideCommands
         additionalVariables entrypointBash in
     exec spawn runCommand None (mkExecOptions (Some silent) (Some true))) h.
Proof. reflexivity. Qed.

Lemma run_win32 image parameters silent overrideCommands additionalVariables
    options entrypointBash h :
  run getEnvVarString spawn "win32" image parameters silent overrideCommands
    additionalVariables options entrypointBash h
  = exec spawn (getWindowsCommand getEnvVarString image parameters) None
      (mkExecOptions (Some silent) (Some true)) h.
Proof. reflexivity. Qed.

Lemma run_unsupported platform image parameters silent overrideCommands
    additionalVariables options entrypointBash h :
  platform <> "linux" -> platform <> "win32" ->
  run getEnvVarString spawn platform image parameters silent overrideCommands
    additionalVariables options entrypointBash h
  = (Throw (Error ("Operation system, " +:+ platform +:+ ", is not supported yet.")),
     h).
Proof.
  intros H1 H2. unfold run.
  apply String.eqb_neq in H1, H2. now rewrite H1, H2.
Qed.

Lemma exec_tolerant commandLine args silent h code :
  spawn h commandLine args = Exited code ->
  exec spawn commandLine args (mkExecOptions silent (Some true)) h
  = (Return code, record (Exec commandLine args (mkExecOptions silent (Some true))) h).
Proof.
  unfold exec. intros ->. cbn [ignoreReturnCode isTrue]. now rewrite orb_true_r.
Qed.

End Run.

(** C4.  On the two platforms [run] supports, once the command is built
    (on Linux, [getLinuxCommand] has returned it; on Windows it is the
    text of [getWindowsCommand]), whatever code the child process exits
    with, [run] starts it with [silent] set to the caller's flag and
    [ignoreReturnCode] set, whatever the caller's options were, and
    returns that code: it does not throw. *)
Theorem C4_run_returns_the_exit_code
    (getEnvVarString :
       Docker.DockerParameters -> option (list Docker.StringKeyValuePair) -> string)
    (spawn : Host.Spawn) (platform image : string)
    (parameters : Docker.DockerParameters) (silent : bool)
    (overrideCommands : string)
    (additionalVariables : list Docker.StringKeyValuePair)
    (options : Host.ExecOptions) (entrypointBash : bool)
    (h built : Host.State) (runCommand : string) (code : Z) :
  (platform = "linux"
   /\ Docker.getLinuxCommand getEnvVarString image parameters overrideCommands
        additionalVariables entrypointBash h = (Host.Return runCommand, built))
  \/ (platform = "win32"
      /\ runCommand = Docker.getWindowsCommand getEnvVarString image parameters
      /\ built = h) ->
  spawn built runCommand None = Host.Exited code ->
  Docker.run getEnvVarString spawn platform image parameters silent
    overrideCommands additionalVariables options entrypointBash h
  = (Host.Return code,
     Host.record
       (Host.Exec runCommand None (Host.mkExecOptions (Some silent) (Some true)))
       built).
Proof.
  intros [[-> Hbuilt] | (-> & -> & ->)] Hexit.
  - rewrite run_linux. rewrite (HostFacts.bind_step _ _ _ _ _ Hbuilt).
    now apply exec_tolerant.
  - rewrite run_win32. now apply exec_tolerant.
Qed.

Lemma C4_run_returns_the_exit_code_witness :
  (forall options,
     fst (Docker.run Sample.noVariables (Sample.allExit 137) "linux"
            "unityci/editor" Sample.parameters false "" [] options false
            Sample.clean)
     = Host.Return 137%Z)
  /\ (forall options,
        fst (Docker.run Sample.noVariables (Sample.allExit 1) "win32"
               "unityci/editor" Sample.parameters true "" [] options false
               Sample.clean)
        = Host.Return 1%Z).
Proof.
  split; intros options.
  - rewrite (C4_run_returns_the_exit_code Sample.noVariables (Sample.allExit 137)
               "linux" "unityci/editor" Sample.parameters false "" [] options false
               Sample.clean
               (snd (Docker.getLinuxCommand Sample.noVariables "unityci/editor"
                       Sample.parameters "" [] false Sample.clean))
               (Text.render (Docker.linuxTemplate Sample.noVariables
                               "unityci/editor" Sample.parameters "" [] false))
               137);
      [reflexivity | left; split; reflexivity | reflexivity].
  - rewrite (C4_run_returns_the_exit_code Sample.noVariables (Sample.allExit 1)
               "win32" "unityci/editor" Sample.parameters true "" [] options false
               Sample.clean Sample.clean
               (Docker.getWindowsCommand Sample.noVariables "unityci/editor"
                  Sample.parameters)
               1);
      [reflexivity | right; repeat split; reflexivity | reflexivity].
Defined.

(** C10.  [darwin] is one of [Action.supportedPlatforms] and
    [checkCompatibility] returns on it, but [run] throws on it, as on
    every platform other than [linux] and [win32], before it builds a
    command or touches the host; on [linux] and [win32] it goes on to
    build the command and start it. *)
Theorem C10_darwin_passes_the_check_but_cannot_run
    (getEnvVarString :
       Docker.DockerParameters -> option (list Docker.StringKeyValuePair) -> string)
    (spawn : Host.Spawn) (image : string)
    (parameters : Docker.DockerParameters) (silent : bool)
    (overrideCommands : string)
    (additionalVariables : list Docker.StringKeyValuePair)
    (options : Host.ExecOptions) (entrypointBash : bool) (h : Host.State) :
  let run platform :=
    Docker.run getEnvVarString spawn platform image parameters silent
      overrideCommands additionalVariables options entrypointBash h in
  In "darwin" Action.supportedPlatforms
  /\ Action.checkCompatibility "darwin" h = (Host.Return tt, h)
  /\ run "darwin"
     = (Host.Throw (Host.Error "Operation system, darwin, is not supported yet."), h)
  /\ (forall platform,
        platform <> "linux" -> platform <> "win32" ->
        run platform
        = (Host.Throw
             (Host.Error ("Operation system, " +:+ platform +:+ ", is not supported yet.")),
           h))
  /\ run "linux"
     = (let! runCommand :=
          Docker.getLinuxCommand getEnvVarString image parameters overrideCommands
            additionalVariables entrypointBash in
        Host.exec spawn runCommand None (Host.mkExecOptions (Some silent) (Some true))) h
  /\ run "win32"
     = Host.exec spawn (Docker.getWindowsCommand getEnvVarString image parameters)
         None (Host.mkExecOptions (Some silent) (Some true)) h.
Proof.
  intros run. repeat apply conj.
  - simpl. tauto.
  - reflexivity.
  - reflexivity.
  - intros platform H1 H2. now apply run_unsupported.
  - reflexivity.
  - reflexivity.
Qed.

Lemma C10_darwin_passes_the_check_but_cannot_run_witness :
  "freebsd" <> "linux" /\ "freebsd" <> "win32"
  /\ Docker.run Sample.noVariables Sample.allSucceed "freebsd" "unityci/editor"
       Sample.parameters false "" [] (Host.mkExecOptions None None) false
       Sample.clean
     = (Host.Throw (Host.Error "Operation system, freebsd, is not supported yet."),
        Sample.clean).
Proof.
  split; [discriminate|]. split; [discriminate|].
  apply (proj1 (proj2 (proj2 (proj2
           (C10_darwin_passes_the_check_but_cannot_run Sample.noVariables
              Sample.allSucceed "unityci/editor" Sample.parameters false "" []
              (Host.mkExecOptions None None) false Sample.clean)))));
    discriminate.
Defined.


(** ** What the templates hold *)

Section Templates.
Import Text TextFacts Js Host HostFacts Docker.

Variable getEnvVarString :
  DockerParameters -> option (list StringKeyValuePair) -> string.

(** Once the conditions of a template are decided, a needle that no
    literal chunk holds and that cannot straddle two pieces occurs in
    the text exactly when an interpolated value holds it; both
    conditions are settled by evaluation. *)
Ltac only_interpolated :=
  cbn [negb andb whenever];
  apply occurs_interpolated;
  [discriminate | vm_compute; reflexivity | vm_compute; reflexivity].

Ltac decide_linux parameters image overrideCommands entrypointBash :=
  unfold linuxTemplate, linuxOptions, linuxInvocation, commandPrefix;
  cbv zeta;
  destruct (truthy (gitPrivateToken parameters));
  destruct (truthy (sshAgent parameters));
  destruct (truthy (sshPublicKeysDirectoryPath parameters));
  destruct entrypointBash;
  destruct (image =? "alpine");
  destruct (overrideCommands =? "");
  try discriminate.

Variables (image : string) (parameters : DockerParameters)
  (overrideCommands : string) (additionalVariables : list StringKeyValuePair)
  (entrypointBash : bool).

Local Abbreviation linux :=
  (linuxTemplate getEnvVarString image parameters overrideCommands
     additionalVariables entrypointBash).

Local Abbreviation windows := (windowsTemplate getEnvVarString image parameters).

Lemma linux_token_variable :
  truthy (gitPrivateToken parameters) = false ->
  occurs "GIT_PRIVATE_TOKEN" (render linux)
  = existsb (occurs "GIT_PRIVATE_TOKEN") (interpolated linux).
Proof.
  intros H. revert H.
  decide_linux parameters image overrideCommands entrypointBash;
    intros _; only_interpolated.
Qed.

Lemma windows_token_variable :
  truthy (gitPrivateToken parameters) = false ->
  occurs "GIT_PRIVATE_TOKEN" (render windows)
  = existsb (occurs "GIT_PRIVATE_TOKEN") (interpolated windows).
Proof.
  unfold windowsTemplate. intros ->. only_interpolated.
Qed.

Lemma linux_agent_socket n :
  n = "SSH_AUTH_SOCK" \/ n = "/ssh-agent" ->
  truthy (sshAgent parameters) = false ->
  occurs n (render linux) = existsb (occurs n) (interpolated linux).
Proof.
  intros Hn H. revert H.
  decide_linux parameters image overrideCommands entrypointBash;
    intros _; destruct Hn as [-> | ->]; only_interpolated.
Qed.

Lemma linux_known_hosts :
  truthy (sshAgent parameters)
    && negb (truthy (sshPublicKeysDirectoryPath parameters)) = false ->
  occurs "known_hosts" (render linux)
  = existsb (occurs "known_hosts") (interpolated linux).
Proof.
  intros H. revert H.
  decide_linux parameters image overrideCommands entrypointBash;
    intros _; only_interpolated.
Qed.

Lemma linux_known_hosts_mount :
  truthy (sshAgent parameters) = true ->
  truthy (sshPublicKeysDirectoryPath parameters) = false ->
  occurs "--volume /home/runner/.ssh/known_hosts:/root/.ssh/known_hosts:ro"
    (render linux) = true.
Proof.
  intros H1 H2.
  unfold linuxTemplate, linuxOptions. rewrite H1, H2. cbv zeta.
  destruct (truthy (gitPrivateToken parameters));
    cbn [negb andb whenever lines flat_map app];
    apply (occurs_run _
             [Lit "--volume /home/runner/.ssh/known_hosts:/root/.ssh/known_hosts:ro"]);
    try reflexivity; cbn [has_run];
    repeat (first [left; eexists; reflexivity | right]).
Qed.

Lemma linux_public_keys :
  truthy (sshPublicKeysDirectoryPath parameters) = false ->
  occurs ":/root/.ssh:ro" (render linux)
  = existsb (occurs ":/root/.ssh:ro") (interpolated linux).
Proof.
  intros H. revert H.
  decide_linux parameters image overrideCommands entrypointBash;
    intros _; only_interpolated.
Qed.

Lemma linux_public_keys_mount :
  truthy (sshPublicKeysDirectoryPath parameters) = true ->
  occurs ("--volume " +:+ str (sshPublicKeysDirectoryPath parameters)
          +:+ ":/root/.ssh:ro")
    (render linux) = true.
Proof.
  intros H.
  unfold linuxTemplate, linuxOptions. rewrite H. cbv zeta.
  destruct (truthy (gitPrivateToken parameters));
    destruct (truthy (sshAgent parameters));
    cbn [negb andb whenever lines flat_map app];
    apply (occurs_run _
             [Lit "--volume "; Ins (str (sshPublicKeysDirectoryPath parameters));
              Lit ":/root/.ssh:ro"]);
    try reflexivity; cbn [has_run];
    repeat (first [left; eexists; reflexivity | right]).
Qed.

Lemma linux_dot_ssh :
  truthy (sshAgent parameters) = false ->
  truthy (sshPublicKeysDirectoryPath parameters) = false ->
  occurs ".ssh" (render linux) = existsb (occurs ".ssh") (interpolated linux).
Proof.
  intros H1 H2. revert H1 H2.
  decide_linux parameters image overrideCommands entrypointBash;
    intros _ _; only_interpolated.
Qed.


End Templates.

(** C6, as amended.  In the command of the Linux path: without
    [sshAgent], [SSH_AUTH_SOCK] and [/ssh-agent] occur only inside the
    values the caller supplies, and so do [known_hosts] and, when
    [sshPublicKeysDirectoryPath] is unset as well, [.ssh]; the public-keys
    mount is there whenever [sshPublicKeysDirectoryPath] is set, with or
    without [sshAgent], and without it [:/root/.ssh:ro] occurs only inside
    the caller's values; with [sshAgent] and without
    [sshPublicKeysDirectoryPath] the known-hosts mount is there; with
    both, the public-keys mount is there and [known_hosts] occurs only
    inside the caller's values. *)
Theorem C6_ssh_mounts
    (getEnvVarString :
       Docker.DockerParameters -> option (list Docker.StringKeyValuePair) -> string)
    (image : string) (parameters : Docker.DockerParameters)
    (overrideCommands : string)
    (additionalVariables : list Docker.StringKeyValuePair)
    (entrypointBash : bool) (h h' : Host.State) (cmd : string) :
  let agent := Js.truthy (Docker.sshAgent parameters) in
  let keys := Js.truthy (Docker.sshPublicKeysDirectoryPath parameters) in
  let supplied n :=
    existsb (Text.occurs n)
      (Text.interpolated
         (Docker.linuxTemplate getEnvVarString image parameters overrideCommands
            additionalVariables entrypointBash)) in
  let keysMount :=
    "--volume " +:+ Js.str (Docker.sshPublicKeysDirectoryPath parameters)
    +:+ ":/root/.ssh:ro" in
  let knownHostsMount :=
    "--volume /home/runner/.ssh/known_hosts:/root/.ssh/known_hosts:ro" in
  Docker.getLinuxCommand getEnvVarString image parameters overrideCommands
    additionalVariables entrypointBash h = (Host.Return cmd, h') ->
  (agent = false ->
   Text.occurs "SSH_AUTH_SOCK" cmd = supplied "SSH_AUTH_SOCK"
   /\ Text.occurs "/ssh-agent" cmd = supplied "/ssh-agent"
   /\ Text.occurs "known_hosts" cmd = supplied "known_hosts"
   /\ (keys = false -> Text.occurs ".ssh" cmd = supplied ".ssh"))
  /\ (keys = true -> Text.occurs keysMount cmd = true)
  /\ (keys = false -> Text.occurs ":/root/.ssh:ro" cmd = supplied ":/root/.ssh:ro")
  /\ (agent = true -> keys = false -> Text.occurs knownHostsMount cmd = true)
  /\ (agent = true -> keys = true ->
      Text.occurs "known_hosts" cmd = supplied "known_hosts").
Proof.
  intros agent keys supplied keysMount knownHostsMount H.
  rewrite (getLinuxCommand_text _ _ _ _ _ _ _ _ _ H).
  subst agent keys supplied keysMount knownHostsMount. cbv beta.
  repeat apply conj.
  - intros Ha. repeat apply conj.
    + apply linux_agent_socket; auto.
    + apply linux_agent_socket; auto.
    + apply linux_known_hosts. now rewrite Ha.
    + intros Hk. now apply linux_dot_ssh.
  - apply linux_public_keys_mount.
  - apply linux_public_keys.
  - apply linux_known_hosts_mount.
  - intros Ha Hk. apply linux_known_hosts. now rewrite Ha, Hk.
Qed.

Lemma C6_ssh_mounts_witness :
  (let cmd := Text.render (Docker.linuxTemplate Sample.noVariables "unityci/editor"
                             Sample.parameters "" [] false) in
   Text.occurs "SSH_AUTH_SOCK" cmd = false /\ Text.occurs "/ssh-agent" cmd = false
   /\ Text.occurs "known_hosts" cmd = false /\ Text.occurs ".ssh" cmd = false)
  /\ (let cmd := Text.render (Docker.linuxTemplate Sample.noVariables "unityci/editor"
                                Sample.agentOnly "" [] false) in
      Text.occurs "--volume /home/runner/.ssh/known_hosts:/root/.ssh/known_hosts:ro"
        cmd = true
      /\ Text.occurs ":/root/.ssh:ro" cmd = false)
  /\ (let cmd := Text.render (Docker.linuxTemplate Sample.noVariables "unityci/editor"
                                Sample.agentAndKeys "" [] false) in
      Text.occurs "--volume /keys:/root/.ssh:ro" cmd = true
      /\ Text.occurs "known_hosts" cmd = false).
Proof.
  assert (W : forall p,
             Docker.runnerTempPath p = "/tmp" ->
             Docker.getLinuxCommand Sample.noVariables "unityci/editor" p "" []
               false Sample.prepared
             = (Host.Return
                  (Text.render (Docker.linuxTemplate Sample.noVariables
                                  "unityci/editor" p "" [] false)),
                Sample.prepared)).
  { intros p E. unfold Docker.getLinuxCommand. rewrite E. reflexivity. }
  split; [|split]; cbv zeta.
  - destruct (C6_ssh_mounts _ _ _ _ _ _ _ _ _ (W Sample.parameters eq_refl))
      as [Ha _].
    destruct (Ha eq_refl) as (E1 & E2 & E3 & E4).
    rewrite E1, E2, E3, (E4 eq_refl). repeat split; reflexivity.
  - destruct (C6_ssh_mounts _ _ _ _ _ _ _ _ _ (W Sample.agentOnly eq_refl))
      as (_ & _ & Hk & Hm & _).
    rewrite (Hk eq_refl). split; [exact (Hm eq_refl eq_refl) | reflexivity].
  - destruct (C6_ssh_mounts _ _ _ _ _ _ _ _ _ (W Sample.agentAndKeys eq_refl))
      as (_ & Hm & _ & _ & Hk).
    rewrite (Hk eq_refl eq_refl). split; [exact (Hm eq_refl) | reflexivity].
Defined.

(** C6, as stated, fails for the public-keys mount: without [sshAgent]
    but with [sshPublicKeysDirectoryPath] the command mounts the directory
    on [/root/.ssh], although none of the values supplied holds [.ssh]. *)
Lemma C6_public_keys_mount_without_agent :
  let template :=
    Docker.linuxTemplate Sample.noVariables "unityci/editor" Sample.keysOnly ""
      [] false in
  Docker.sshAgent Sample.keysOnly = None
  /\ Docker.getLinuxCommand Sample.noVariables "unityci/editor" Sample.keysOnly ""
       [] false Sample.prepared
     = (Host.Return (Text.render template), Sample.prepared)
  /\ existsb (Text.occurs ".ssh") (Text.interpolated template) = false
  /\ Text.occurs ".ssh" (Text.render template) = true
  /\ Text.occurs "--volume /keys:/root/.ssh:ro" (Text.render template) = true.
Proof. cbv zeta. repeat split; vm_compute; reflexivity. Qed.

(** C7, as amended.  When [gitPrivateToken] is unset (or empty), the
    builder itself puts no [GIT_PRIVATE_TOKEN] variable into the command,
    on the Linux and on the Windows path: the text [GIT_PRIVATE_TOKEN]
    occurs in the command exactly when it occurs inside a value the
    caller supplies, so a command built from values that do not hold it
    does not hold it. *)
Theorem C7_no_token_variable_when_unset
    (getEnvVarString :
       Docker.DockerParameters -> option (list Docker.StringKeyValuePair) -> string)
    (image : string) (parameters : Docker.DockerParameters)
    (overrideCommands : string)
    (additionalVariables : list Docker.StringKeyValuePair)
    (entrypointBash : bool) (h h' : Host.State) (cmd : string) :
  let linux :=
    Docker.linuxTemplate getEnvVarString image parameters overrideCommands
      additionalVariables entrypointBash in
  let windows := Docker.windowsTemplate getEnvVarString image parameters in
  Js.truthy (Docker.gitPrivateToken parameters) = false ->
  (Docker.getLinuxCommand getEnvVarString image parameters overrideCommands
     additionalVariables entrypointBash h = (Host.Return cmd, h') ->
   Text.occurs "GIT_PRIVATE_TOKEN" cmd
   = existsb (Text.occurs "GIT_PRIVATE_TOKEN") (Text.interpolated linux))
  /\ Text.occurs "GIT_PRIVATE_TOKEN"
       (Docker.getWindowsCommand getEnvVarString image parameters)
     = existsb (Text.occurs "GIT_PRIVATE_TOKEN") (Text.interpolated windows)
  /\ ((forall v, In v (Text.interpolated linux) ->
         Text.occurs "GIT_PRIVATE_TOKEN" v = false) ->
      Text.occurs "GIT_PRIVATE_TOKEN" (Text.render linux) = false)
  /\ ((forall v, In v (Text.interpolated windows) ->
         Text.occurs "GIT_PRIVATE_TOKEN" v = false) ->
      Text.occurs "GIT_PRIVATE_TOKEN"
        (Docker.getWindowsCommand getEnvVarString image parameters) = false).
Proof.
  intros linux windows Htoken.
  assert (free : forall l : list string,
            (forall v, In v l -> Text.occurs "GIT_PRIVATE_TOKEN" v = false) ->
            existsb (Text.occurs "GIT_PRIVATE_TOKEN") l = false).
  { intros l Hl. destruct (existsb _ l) eqn:E; [|reflexivity].
    apply existsb_exists in E as (v & Hv & Ev). rewrite (Hl v Hv) in Ev.
    discriminate. }
  repeat apply conj.
  - intros H. rewrite (getLinuxCommand_text _ _ _ _ _ _ _ _ _ H).
    now apply linux_token_variable.
  - now apply windows_token_variable.
  - intros Hv. subst linux. rewrite linux_token_variable by exact Htoken.
    now apply free.
  - intros Hv. unfold Docker.getWindowsCommand.
    rewrite windows_token_variable by exact Htoken. now apply free.
Qed.

Lemma C7_no_token_variable_when_unset_witness :
  Js.truthy (Docker.gitPrivateToken Sample.parameters) = false
  /\ Text.occurs "GIT_PRIVATE_TOKEN"
       (Text.render (Docker.linuxTemplate Sample.noVariables "unityci/editor"
                       Sample.parameters "" [] false)) = false
  /\ Text.occurs "GIT_PRIVATE_TOKEN"
       (Docker.getWindowsCommand Sample.noVariables "unityci/editor"
          Sample.parameters) = false.
Proof.
  split; [reflexivity|].
  destruct (C7_no_token_variable_when_unset Sample.noVariables "unityci/editor"
              Sample.parameters "" [] false Sample.prepared Sample.prepared ""
              eq_refl) as (_ & E & _ & _).
  split; [|rewrite E; reflexivity].
  destruct (C7_no_token_variable_when_unset Sample.noVariables "unityci/editor"
              Sample.parameters "" [] false Sample.prepared Sample.prepared ""
              eq_refl) as (_ & _ & F & _).
  apply F. vm_compute. intros v Hv.
  repeat (destruct Hv as [<- | Hv]; [reflexivity|]). destruct Hv.
Defined.

(** C7, as stated, fails: the values are put into the command as they
    are, so with [gitPrivateToken] unset and a [dockerWorkspacePath] that
    holds the text of the option, the command holds a [GIT_PRIVATE_TOKEN]
    variable, on the Linux and on the Windows path. *)
Lemma C7_token_variable_from_another_value :
  let linux :=
    Docker.linuxTemplate Sample.noVariables "unityci/editor" Sample.leaking ""
      [] false in
  Docker.gitPrivateToken Sample.leaking = None
  /\ Docker.getLinuxCommand Sample.noVariables "unityci/editor" Sample.leaking ""
       [] false Sample.prepared
     = (Host.Return (Text.render linux), Sample.prepared)
  /\ Text.occurs "--workdir /w --env GIT_PRIVATE_TOKEN=leak "
       (Text.render linux) = true
  /\ Text.occurs "--workdir c:/w --env GIT_PRIVATE_TOKEN=leak "
       (Docker.getWindowsCommand Sample.noVariables "unityci/editor"
          Sample.leaking) = true.
Proof. cbv zeta. repeat split; vm_compute; reflexivity. Qed.

(** C8.  The text of the command depends on nothing but the arguments
    and what [getEnvVarString] makes of them: on Linux, whatever the state
    of the host, every invocation that returns, returns the text of the
    template of its arguments, so two invocations on any two hosts return
    the same text; it returns whenever the two auxiliary directories are
    there or can be made, and an invocation that follows one that has
    returned returns the same text and changes nothing.  On Windows the
    command is a function of the image and the parameters. *)
Theorem C8_command_is_deterministic
    (getEnvVarString :
       Docker.DockerParameters -> option (list Docker.StringKeyValuePair) -> string)
    (image : string) (parameters : Docker.DockerParameters)
    (overrideCommands : string)
    (additionalVariables : list Docker.StringKeyValuePair)
    (entrypointBash : bool) :
  let build :=
    Docker.getLinuxCommand getEnvVarString image parameters overrideCommands
      additionalVariables entrypointBash in
  let githubHome := path.join [Docker.runnerTempPath parameters; "_github_home"] in
  let githubWorkflow :=
    path.join [Docker.runnerTempPath parameters; "_github_workflow"] in
  (forall h1 h2 cmd1 cmd2 h1' h2',
     build h1 = (Host.Return cmd1, h1') -> build h2 = (Host.Return cmd2, h2') ->
     cmd1 = cmd2)
  /\ (forall h cmd h',
        build h = (Host.Return cmd, h') -> build h' = (Host.Return cmd, h'))
  /\ (forall h,
        is_Some (Host.files h !! githubHome)
          \/ Host.files h !! path.dirname githubHome = Some Host.Directory ->
        is_Some (Host.files h !! githubWorkflow)
          \/ Host.files h !! path.dirname githubWorkflow = Some Host.Directory ->
        exists cmd h', build h = (Host.Return cmd, h'))
  /\ (forall image' parameters',
        image' = image -> parameters' = parameters ->
        Docker.getWindowsCommand getEnvVarString image' parameters'
        = Docker.getWindowsCommand getEnvVarString image parameters).
Proof.
  intros build githubHome githubWorkflow. repeat apply conj.
  - intros h1 h2 cmd1 cmd2 h1' h2' H1 H2.
    rewrite (getLinuxCommand_text _ _ _ _ _ _ _ _ _ H1).
    now rewrite (getLinuxCommand_text _ _ _ _ _ _ _ _ _ H2).
  - intros h cmd h' H. now apply getLinuxCommand_again with (h := h).
  - intros h H1 H2.
    destruct (getLinuxCommand_returns getEnvVarString image parameters
                overrideCommands additionalVariables entrypointBash h H1 H2)
      as [h' E].
    eauto.
  - now intros image' parameters' -> ->.
Qed.

Lemma C8_command_is_deterministic_witness :
  let build :=
    Docker.getLinuxCommand Sample.noVariables "unityci/editor" Sample.parameters
      "" [] false in
  let text (r : Host.Completion string * Host.State) :=
    match fst r with Host.Return cmd => cmd | Host.Throw _ => "" end in
  build Sample.clean = (Host.Return (text (build Sample.clean)), snd (build Sample.clean))
  /\ build Sample.prepared = (Host.Return (text (build Sample.prepared)), Sample.prepared)
  /\ text (build Sample.clean) = text (build Sample.prepared)
  /\ Host.journal (snd (build Sample.clean))
     = [Host.MakeDirectory "/tmp/_github_home";
        Host.MakeDirectory "/tmp/_github_workflow"].
Proof.
  cbv zeta. split; [reflexivity|]. split; [reflexivity|]. split; [|reflexivity].
  apply (proj1 (C8_command_is_deterministic Sample.noVariables "unityci/editor"
                  Sample.parameters "" [] false)
           Sample.clean Sample.prepared _ _
           (snd (Docker.getLinuxCommand Sample.noVariables "unityci/editor"
                   Sample.parameters "" [] false Sample.clean))
           Sample.prepared);
    reflexivity.
Defined.



(** * More of the code *)

(** ** Directory and base name of a path that ends with a plain segment *)

Module PathParts.
Import Text TextFacts PathFacts.

Lemma list_ascii_app (a b : string) :
  list_ascii_of_string (a +:+ b)
  = list_ascii_of_string a ++ list_ascii_of_string b.
Proof. induction a as [|c a IH]; simpl; [reflexivity | now rewrite IH]. Qed.

Local Abbreviation isSlash := (fun c : ascii => Ascii.eqb c path.slash).
Local Abbreviation notSlash := (fun c : ascii => negb (Ascii.eqb c path.slash)).

Lemma plain_chars (s : string) :
  occurs "/" s = false -> forallb notSlash (list_ascii_of_string s) = true.
Proof.
  induction s as [|c s IH]; [reflexivity|].
  rewrite occurs_slash_cons. intros H. apply orb_false_iff in H as [H1 H2].
  simpl. rewrite Ascii.eqb_sym, H1. now apply IH.
Qed.

Lemma forallb_rev (f : ascii -> bool) (l : list ascii) :
  forallb f l = true -> forallb f (rev l) = true.
Proof.
  intros H. apply forallb_forall. intros x Hx. apply in_rev in Hx.
  rewrite forallb_forall in H. now apply H.
Qed.

Lemma dropWhile_all (f : ascii -> bool) (l : list ascii) c r :
  forallb f l = true -> f c = false ->
  path.dropWhile f (l ++ c :: r) = c :: r.
Proof.
  induction l as [|x l IH]; simpl; intros H Hc; [now rewrite Hc|].
  apply andb_true_iff in H as [-> H]. now apply IH.
Qed.

Lemma takeWhile_all (f : ascii -> bool) (l : list ascii) c r :
  forallb f l = true -> f c = false ->
  path.takeWhile f (l ++ c :: r) = l.
Proof.
  induction l as [|x l IH]; simpl; intros H Hc; [now rewrite Hc|].
  apply andb_true_iff in H as [-> H]. now rewrite IH.
Qed.

Lemma takeWhile_whole (f : ascii -> bool) (l : list ascii) :
  forallb f l = true -> path.takeWhile f l = l.
Proof.
  induction l as [|x l IH]; simpl; intros H; [reflexivity|].
  apply andb_true_iff in H as [-> H]. now rewrite IH.
Qed.

Lemma dropWhile_head (l r : list ascii) :
  l <> [] -> forallb notSlash l = true ->
  path.dropWhile isSlash (l ++ r) = l ++ r.
Proof.
  destruct l as [|x l]; [congruence|]. simpl. intros _ H.
  apply andb_true_iff in H as [H _]. apply negb_true_iff in H. now rewrite H.
Qed.

Lemma dropWhile_plain (l : list ascii) :
  forallb notSlash l = true -> path.dropWhile isSlash l = l.
Proof.
  destruct l as [|x l]; [reflexivity|]. simpl. intros H.
  apply andb_true_iff in H as [H _]. apply negb_true_iff in H. now rewrite H.
Qed.

Lemma rev_chars_nonempty (s : string) :
  s <> "" -> rev (list_ascii_of_string s) <> [].
Proof.
  destruct s as [|c s]; [congruence|]. intros _ H. simpl in H.
  now apply app_eq_nil in H as [_ H].
Qed.

Lemma string_of_rev_rev (s : string) :
  string_of_list_ascii (rev (rev (list_ascii_of_string s))) = s.
Proof. rewrite rev_involutive. apply string_of_list_ascii_of_string. Qed.

(** The characters of [base/seg], last first. *)
Lemma rev_chars_snoc (rest seg : string) :
  rev (list_ascii_of_string (rest +:+ "/" +:+ seg))
  = rev (list_ascii_of_string seg)
    ++ path.slash :: rev (list_ascii_of_string rest).
Proof.
  rewrite list_ascii_app.
  change (list_ascii_of_string ("/" +:+ seg))
    with (path.slash :: list_ascii_of_string seg).
  rewrite rev_app_distr. cbn [rev]. now rewrite <- app_assoc.
Qed.

Lemma basename_snoc (base seg : string) :
  seg <> "" -> occurs "/" seg = false ->
  path.basename (base +:+ "/" +:+ seg) = seg.
Proof.
  intros Hne Hplain. unfold path.basename. rewrite rev_chars_snoc.
  pose proof (forallb_rev _ _ (plain_chars seg Hplain)) as Hrev.
  rewrite dropWhile_head by (auto using rev_chars_nonempty).
  rewrite (takeWhile_all notSlash) by (auto; reflexivity).
  apply string_of_rev_rev.
Qed.

Lemma basename_plain (seg : string) :
  occurs "/" seg = false -> path.basename seg = seg.
Proof.
  intros Hplain. unfold path.basename.
  pose proof (forallb_rev _ _ (plain_chars seg Hplain)) as Hrev.
  rewrite dropWhile_plain by exact Hrev.
  rewrite takeWhile_whole by exact Hrev.
  apply string_of_rev_rev.
Qed.

Lemma trailing_cons (c : ascii) (rest : string) :
  rest <> "" ->
  path.trailingSeparator (String c rest) = path.trailingSeparator rest.
Proof. destruct rest; [congruence | reflexivity]. Qed.

Lemma dirname_snoc (base seg : string) :
  base <> "" -> path.trailingSeparator base = false ->
  seg <> "" -> occurs "/" seg = false ->
  path.dirname (base +:+ "/" +:+ seg) = base.
Proof.
  intros Hbase Htrail Hne Hplain.
  destruct base as [|c0 rest]; [congruence|].
  change (String c0 rest +:+ "/" +:+ seg) with (String c0 (rest +:+ "/" +:+ seg)).
  unfold path.dirname. rewrite rev_chars_snoc.
  pose proof (forallb_rev _ _ (plain_chars seg Hplain)) as Hrev.
  rewrite dropWhile_head by (auto using rev_chars_nonempty).
  rewrite (dropWhile_all notSlash)
    by (auto; cbn; now rewrite Ascii.eqb_refl).
  destruct rest as [|c1 rest1] eqn:E.
  - cbn [list_ascii_of_string rev].
    unfold path.trailingSeparator in Htrail. cbn in Htrail. now rewrite Htrail.
  - rewrite <- E in *.
    destruct (rev (list_ascii_of_string rest)) as [|x l] eqn:Erev.
    + exfalso. apply (rev_chars_nonempty rest); [subst; discriminate | exact Erev].
    + rewrite <- Erev. now rewrite string_of_rev_rev.
Qed.

Lemma trailing_snoc (base seg : string) :
  seg <> "" -> occurs "/" seg = false ->
  path.trailingSeparator (base +:+ "/" +:+ seg) = false.
Proof.
  intros Hne Hplain. unfold path.trailingSeparator.
  destruct seg as [|s0 seg0]; [congruence|].
  change (base +:+ "/" +:+ String s0 seg0)
    with (base +:+ String "/" (String s0 seg0)).
  rewrite last_char_app.
  change (last_char (String "/" (String s0 seg0)))
    with (last_char (String s0 seg0)).
  destruct (last_char (String s0 seg0)) as [c|] eqn:EL; [|reflexivity].
  now apply (last_char_plain (String s0 seg0)).
Qed.

Lemma snoc_nonempty (base seg : string) : base +:+ "/" +:+ seg <> "".
Proof. destruct base; discriminate. Qed.

Lemma join_two (a b : string) :
  a <> "" -> b <> "" -> path.join [a; b] = path.normalize (a +:+ "/" +:+ b).
Proof.
  destruct a as [|x a]; [congruence|]. destruct b as [|y b]; [congruence|].
  reflexivity.
Qed.

(** Joining [/..] to a path that ends with a plain segment removes the
    segment. *)
Lemma join_parent (tmp seg : string) :
  tmp <> "" -> tmp <> "." -> path.normalize tmp = tmp ->
  path.trailingSeparator tmp = false ->
  occurs "/" seg = false ->
  (seg =? "") = false -> (seg =? ".") = false -> (seg =? "..") = false ->
  path.join [tmp +:+ "/" +:+ seg; "/.."] = tmp.
Proof.
  intros Hne Hdot Hnorm Htrail Hplain Hs1 Hs2 Hs3.
  rewrite join_two by (try discriminate; apply snoc_nonempty).
  assert (Htrail' :
            path.trailingSeparator ((tmp +:+ "/" +:+ seg) +:+ "/" +:+ "/..") = false).
  { replace ((tmp +:+ "/" +:+ seg) +:+ "/" +:+ "/..")
      with (((tmp +:+ "/" +:+ seg) +:+ "/") +:+ "/" +:+ "..")
      by (now rewrite !append_assoc).
    now apply trailing_snoc. }
  replace ((tmp +:+ "/" +:+ seg) +:+ "/" +:+ "/..")
    with (tmp +:+ "/" +:+ (seg +:+ "/" +:+ "/.."))
    in * by (now rewrite !append_assoc).
  destruct tmp as [|c0 tmp0] eqn:Etmp; [congruence|]. rewrite <- Etmp in *.
  assert (Habs : path.isAbsolute (tmp +:+ "/" +:+ seg +:+ "/" +:+ "/..")
                 = path.isAbsolute tmp) by (rewrite Etmp; reflexivity).
  unfold path.normalize in *.
  assert (E0 : (tmp =? "") = false) by (rewrite Etmp; reflexivity).
  assert (E1 : (tmp +:+ "/" +:+ seg +:+ "/" +:+ "/.." =? "") = false)
    by (rewrite Etmp; reflexivity).
  rewrite E0 in Hnorm. rewrite E1, Habs, Htrail'. rewrite Htrail in Hnorm.
  unfold path.normalizeString in *.
  rewrite split_slash, split_slash, (split_plain seg Hplain), fold_left_app.
  set (allow := negb (path.isAbsolute tmp)) in *.
  set (st := fold_left (path.visit allow) (path.split tmp) []) in *.
  change (path.split "/..") with [""; ".."].
  cbn [app fold_left].
  rewrite (visit_plain allow st seg Hs1 Hs2 Hs3).
  change (path.visit allow (seg :: st) "") with (seg :: st).
  assert (V : path.visit allow (seg :: st) ".." = st)
    by (unfold path.visit; cbn; now rewrite Hs3).
  rewrite V.
  destruct (String.concat "/" (rev st) =? "") eqn:Ebody.
  - destruct (path.isAbsolute tmp).
    + rewrite <- Hnorm in Htrail. discriminate.
    + congruence.
  - exact Hnorm.
Qed.

End PathParts.

(** ** Where the action finds itself *)

Section ActionLayout.
Import Text TextFacts PathFacts PathParts.

Variable process : Action.Process.
Variables root dir file : string.

Hypothesis root_nonempty : root <> "".
Hypothesis root_open : path.trailingSeparator root = false.
Hypothesis dir_nonempty : dir <> "".
Hypothesis dir_plain : occurs "/" dir = false.
Hypothesis file_nonempty : file <> "".
Hypothesis file_plain : occurs "/" file = false.

Lemma dirname_of_source :
  Action.filename process = root +:+ "/" +:+ dir +:+ "/model/" +:+ file ->
  path.dirname (Action.filename process) = (root +:+ "/" +:+ dir) +:+ "/" +:+ "model".
Proof.
  intros ->.
  replace (root +:+ "/" +:+ dir +:+ "/model/" +:+ file)
    with (((root +:+ "/" +:+ dir) +:+ "/" +:+ "model") +:+ "/" +:+ file)
    by (rewrite !append_assoc; reflexivity).
  apply dirname_snoc; auto using snoc_nonempty.
  now apply trailing_snoc.
Qed.

Lemma dirname_of_bundle :
  Action.filename process = root +:+ "/" +:+ dir +:+ "/" +:+ file ->
  path.dirname (Action.filename process) = root +:+ "/" +:+ dir.
Proof.
  intros ->.
  replace (root +:+ "/" +:+ dir +:+ "/" +:+ file)
    with ((root +:+ "/" +:+ dir) +:+ "/" +:+ file)
    by (now rewrite !append_assoc).
  apply dirname_snoc; auto using snoc_nonempty.
  now apply trailing_snoc.
Qed.

(** X1.  Loaded from [<root>/<dir>/model/<file>], the action runs from
    source: its root folder is [<root>] and its action folder
    [<root>/dist]; when [<root>] is in normal form, its canonical name is
    the last segment of [<root>]. *)
Theorem action_layout_from_source :
  Action.filename process = root +:+ "/" +:+ dir +:+ "/model/" +:+ file ->
  Action.isRunningFromSource process = true
  /\ Action.rootFolder process = root
  /\ Action.actionFolder process = root +:+ "/dist"
  /\ (root <> "." -> path.normalize root = root ->
      (dir =? ".") = false -> (dir =? "..") = false ->
      Action.canonicalName process = path.basename root).
Proof.
  intros Hfile. pose proof (dirname_of_source Hfile) as Hdir.
  assert (Hsrc : Action.isRunningFromSource process = true).
  { unfold Action.isRunningFromSource. rewrite Hdir.
    rewrite basename_snoc by (discriminate || reflexivity). reflexivity. }
  assert (Hup : path.dirname ((root +:+ "/" +:+ dir) +:+ "/" +:+ "model")
                = root +:+ "/" +:+ dir).
  { apply dirname_snoc; auto using snoc_nonempty; try discriminate.
    now apply trailing_snoc. }
  assert (Hroot : path.dirname (root +:+ "/" +:+ dir) = root)
    by now apply dirname_snoc.
  assert (Hfolder : Action.rootFolder process = root).
  { unfold Action.rootFolder. now rewrite Hsrc, Hdir, Hup. }
  repeat apply conj; auto.
  - unfold Action.actionFolder. now rewrite Hfolder.
  - intros Hdot Hnorm Hd1 Hd2.
    unfold Action.canonicalName. rewrite Hsrc, Hdir.
    assert (Hd0 : (dir =? "") = false)
      by (destruct dir; [congruence | reflexivity]).
    rewrite join_parent; try reflexivity.
    + now rewrite Hroot.
    + apply snoc_nonempty.
    + destruct root as [|c r]; [congruence|]. intros [= _ H].
      now destruct r.
    + now apply normalize_snoc.
    + now apply trailing_snoc.
Qed.

(** X2.  Loaded from [<root>/<dir>/<file>] with [<dir>] other than
    [model], as the bundle [<root>/dist/index.js] is, the action does not
    run from source: its canonical name is [unity-builder], its root
    folder [<root>] and its action folder [<root>/dist]. *)
Theorem action_layout_bundled :
  Action.filename process = root +:+ "/" +:+ dir +:+ "/" +:+ file ->
  (dir =? "model") = false ->
  Action.isRunningFromSource process = false
  /\ Action.canonicalName process = "unity-builder"
  /\ Action.rootFolder process = root
  /\ Action.actionFolder process = root +:+ "/dist".
Proof.
  intros Hfile Hdir'. pose proof (dirname_of_bundle Hfile) as Hdir.
  assert (Hsrc : Action.isRunningFromSource process = false).
  { unfold Action.isRunningFromSource. rewrite Hdir.
    now rewrite basename_snoc. }
  assert (Hfolder : Action.rootFolder process = root).
  { unfold Action.rootFolder. rewrite Hsrc, Hdir. now apply dirname_snoc. }
  repeat apply conj; auto.
  - unfold Action.canonicalName. now rewrite Hsrc.
  - unfold Action.actionFolder. now rewrite Hfolder.
Qed.

End ActionLayout.

Lemma action_layout_from_source_witness :
  Action.rootFolder Sample.fromSource = "/opt/unity-builder"
  /\ Action.actionFolder Sample.fromSource = "/opt/unity-builder/dist"
  /\ Action.canonicalName Sample.fromSource = "unity-builder".
Proof.
  destruct (action_layout_from_source Sample.fromSource "/opt/unity-builder" "src"
              "action.ts")
    as (_ & H1 & H2 & H3);
    try first [reflexivity | discriminate].
  split; [exact H1|]. split; [exact H2|].
  rewrite H3; first [reflexivity | discriminate].
Defined.

Lemma action_layout_bundled_witness :
  Action.isRunningFromSource Sample.bundled = false
  /\ Action.actionFolder Sample.bundled = "/opt/unity-builder/dist".
Proof.
  destruct (action_layout_bundled Sample.bundled "/opt/unity-builder" "dist"
              "index.js")
    as (H0 & _ & _ & H2);
    try first [reflexivity | discriminate].
  split; [exact H0 | exact H2].
Defined.

(** ** The identity file of a run *)

Section IdentityOfARun.
Import Text TextFacts PathFacts PathParts Docker.

Lemma snoc_inj (a b x y : string) :
  occurs "/" x = false -> occurs "/" y = false ->
  a +:+ "/" +:+ x = b +:+ "/" +:+ y -> a = b /\ x = y.
Proof.
  intros Hx Hy. revert b.
  induction a as [|c a IH]; intros [|d b] H.
  - injection H as H. now split.
  - injection H as _ H.
    assert (E : occurs "/" x = true)
      by (rewrite H; apply (occurs_middle "/" b y)).
    congruence.
  - injection H as _ H.
    assert (E : occurs "/" y = true)
      by (rewrite <- H; apply (occurs_middle "/" a x)).
    congruence.
  - injection H as -> H. destruct (IH b H) as [-> ->]. now split.
Qed.

Lemma digits_plain (d : Decimal.uint) :
  occurs "/" (NilEmpty.string_of_uint d) = false.
Proof.
  induction d; cbn [NilEmpty.string_of_uint]; [reflexivity| ..];
    rewrite occurs_slash_cons; exact IHd.
Qed.

(** X3.  Two runs whose temporary directories are in normal form and whose
    identifiers hold no slash share their identity file only when they
    have the same directory and the same identifier. *)
Theorem identity_file_tells_runs_apart (one other : Action.RunnerContext) :
  let plain (tmp : string) :=
    tmp <> "" /\ tmp <> "." /\ path.normalize tmp = tmp
    /\ path.trailingSeparator tmp = false in
  plain (Action.runnerTemporaryPath one) ->
  plain (Action.runnerTemporaryPath other) ->
  occurs "/" (Action.githubAction one) = false ->
  occurs "/" (Action.githubAction other) = false ->
  containerIdFilePath one = containerIdFilePath other ->
  one = other.
Proof.
  intros plain (A1 & A2 & A3 & A4) (B1 & B2 & B3 & B4) Hone Hother.
  rewrite (containerIdFilePath_plain one), (containerIdFilePath_plain other)
    by assumption.
  intros H.
  apply (snoc_inj _ _ ("container_" +:+ Action.githubAction one)
           ("container_" +:+ Action.githubAction other)) in H as [Ht Hi];
    [|exact Hone | exact Hother].
  apply (inj (String.append "container_")) in Hi.
  destruct one, other; cbn in *. now subst.
Qed.

(** X4.  The context of a run read from its process: with [RUNNER_TEMP] and
    [GITHUB_ACTION] set, the identity file is
    [<RUNNER_TEMP>/container_<GITHUB_ACTION>]; with neither set, it is
    [<cwd>/container_<pid>], and the digits of the process id never break
    the path. *)
Theorem identity_file_of_process (process : Action.Process) :
  let plain (tmp : string) :=
    tmp <> "" /\ tmp <> "." /\ path.normalize tmp = tmp
    /\ path.trailingSeparator tmp = false in
  let cidfile := containerIdFilePath (Action.runnerContext process) in
  (forall tmp id,
     Action.env process !! "RUNNER_TEMP" = Some tmp ->
     Action.env process !! "GITHUB_ACTION" = Some id ->
     plain tmp -> occurs "/" id = false ->
     cidfile = tmp +:+ "/container_" +:+ id)
  /\ (Action.env process !! "RUNNER_TEMP" = None ->
      Action.env process !! "GITHUB_ACTION" = None ->
      plain (Action.cwd process) ->
      cidfile = Action.cwd process +:+ "/container_"
                +:+ Js.numberToString (Action.pid process)).
Proof.
  intros plain cidfile. subst cidfile. split.
  - intros tmp id Ht Hi (A1 & A2 & A3 & A4) Hplain.
    rewrite containerIdFilePath_plain;
      unfold Action.runnerContext; rewrite Ht, Hi; cbn; auto.
  - intros Ht Hi (A1 & A2 & A3 & A4).
    rewrite containerIdFilePath_plain;
      unfold Action.runnerContext; rewrite Ht, Hi; cbn; auto.
    apply digits_plain.
Qed.

End IdentityOfARun.

Lemma identity_file_tells_runs_apart_witness :
  Docker.containerIdFilePath (Action.mkRunnerContext "/tmp" "run1")
  <> Docker.containerIdFilePath (Action.mkRunnerContext "/tmp" "run2").
Proof.
  intros H.
  apply (identity_file_tells_runs_apart (Action.mkRunnerContext "/tmp" "run1")
           (Action.mkRunnerContext "/tmp" "run2")) in H;
    [discriminate H | ..];
    repeat split; first [reflexivity | discriminate].
Defined.

Lemma identity_file_of_process_witness :
  Docker.containerIdFilePath (Action.runnerContext Sample.fromSource)
  = "/home/runner/work/_temp/container___self"
  /\ Docker.containerIdFilePath (Action.runnerContext Sample.bundled)
     = "/work/container_4321".
Proof.
  destruct (identity_file_of_process Sample.fromSource) as [H _].
  destruct (identity_file_of_process Sample.bundled) as [_ H'].
  split.
  - apply (H "/home/runner/work/_temp" "__self");
      repeat split; first [reflexivity | discriminate].
  - apply H'; repeat split; first [reflexivity | discriminate].
Defined.

(** ** What the removal and the run do to the host *)

Section HostEffects.
Import Js Host HostFacts Docker.

Variable getEnvVarString :
  DockerParameters -> option (list StringKeyValuePair) -> string.
Variable spawn : Spawn.

Lemma exec_state commandLine args options h :
  snd (exec spawn commandLine args options h)
  = record (Exec commandLine args options) h.
Proof.
  unfold exec. destruct (spawn h commandLine args) as [|c]; [reflexivity|].
  now destruct ((c =? 0)%Z || isTrue (ignoreReturnCode options)).
Qed.

Lemma exec_strict commandLine args silent h :
  exec spawn commandLine args (mkExecOptions silent None) h
  = (match spawn h commandLine args with
     | Exited 0 => Return 0%Z
     | Exited code => Throw (ExecFailure (Some code))
     | LaunchFailed => Throw (ExecFailure None)
     end,
     record (Exec commandLine args (mkExecOptions silent None)) h).
Proof.
  unfold exec. destruct (spawn h commandLine args) as [|[|c|c]]; reflexivity.
Qed.

(** X5.  The identity path taken by a directory: the read fails, and that is
    all that happens. *)
Theorem removal_of_a_directory (ctx : Action.RunnerContext) (h : State) :
  files h !! containerIdFilePath ctx = Some Directory ->
  ensureContainerRemoval spawn ctx h
  = (Throw (SystemError "EISDIR" (containerIdFilePath ctx)),
     record (ReadFile (containerIdFilePath ctx)) h).
Proof.
  intros H. unfold ensureContainerRemoval.
  unfold bind at 1. unfold existsSync.
  rewrite bool_decide_eq_true_2 by (rewrite H; eauto). cbn [negb].
  unfold bind at 1. unfold readFileSync. now rewrite H.
Qed.


(** X7.  With the identity file there, the call returns, and the file is
    reaped, exactly when both runtime calls exit with code 0. *)
Theorem removal_returns_exactly_when_both_calls_succeed
    (ctx : Action.RunnerContext) (h : State) (content : string) :
  let cidfile := containerIdFilePath ctx in
  let container := trim (decodeAscii content) in
  let cleanup := ["exec"; container; "/bin/bash"; "-c"; "/cleanup.sh"] in
  let removal := ["rm"; "--force"; "--volumes"; container] in
  let read := record (ReadFile cidfile) h in
  let cleaned :=
    record (Exec "docker" (Some cleanup) (mkExecOptions (Some false) None)) read in
  files h !! cidfile = Some (File content) ->
  (exists h', ensureContainerRemoval spawn ctx h = (Return tt, h'))
  <-> spawn read "docker" (Some cleanup) = Exited 0
      /\ spawn cleaned "docker" (Some removal) = Exited 0.
Proof.
  intros cidfile container cleanup removal read cleaned Hfile.
  subst cidfile container cleanup removal read cleaned.
  rewrite (removal_present spawn ctx h content Hfile). cbv zeta.
  unfold bind. rewrite !exec_strict.
  destruct (spawn (record (ReadFile _) h) _ _) as [|[|c|c]];
    try (split; [intros [h' H]; discriminate | intros [H _]; discriminate]).
  destruct (spawn (record (Exec _ _ _) _) _ _) as [|[|c|c]];
    try (split; [intros [h' H]; discriminate | intros [_ H]; discriminate]).
  split; [now split|]. intros _.
  unfold rmSync. cbn [files record]. rewrite Hfile. eauto.
Qed.

(** *** The two auxiliary directories *)

Lemma ensureDirectory_cases dir h r h' :
  ensureDirectory dir h = (r, h') ->
  (r = Return tt /\ h' = h /\ is_Some (files h !! dir))
  \/ (files h !! dir = None
      /\ journal h' = journal h ++ [MakeDirectory dir]
      /\ ((r = Return tt /\ files h' = <[dir := Directory]> (files h))
          \/ (files h' = files h
              /\ exists code, r = Throw (SystemError code dir)))).
Proof.
  unfold ensureDirectory, bind, existsSync.
  destruct (bool_decide (is_Some (files h !! dir))) eqn:E; cbn [negb].
  - apply bool_decide_eq_true_1 in E. intros [= <- <-]. now left.
  - apply bool_decide_eq_false_1 in E. unfold mkdirSync.
    destruct (files h !! dir) eqn:E1; [exfalso; eauto|].
    destruct (files h !! path.dirname dir) as [[c|]|];
      intros [= <- <-]; right; cbn [record files journal]; eauto 8.
Qed.

Lemma madeOnly_refl dirs h : madeOnly dirs h h.
Proof.
  repeat apply conj; auto.
  - intros p Hp [x Hx]. congruence.
  - exists []. cbn. rewrite app_nil_r. split; [reflexivity | apply incl_nil_l].
Qed.

Lemma madeOnly_trans l1 l2 h h1 h2 :
  madeOnly l1 h h1 -> madeOnly l2 h1 h2 -> madeOnly (l1 ++ l2) h h2.
Proof.
  intros (K1 & N1 & d1 & J1 & I1) (K2 & N2 & d2 & J2 & I2).
  repeat apply conj.
  - auto.
  - intros p Hp Hs. destruct (files h1 !! p) as [n|] eqn:E.
    + destruct (N1 p Hp) as [Hin Hd]; [rewrite E; eauto|].
      split; [apply in_or_app; now left | now apply K2].
    + destruct (N2 p E Hs) as [Hin Hd].
      split; [apply in_or_app; now right | exact Hd].
  - exists (d1 ++ d2). split.
    + now rewrite J2, J1, map_app, app_assoc.
    + apply incl_app; [now apply incl_appl | now apply incl_appr].
Qed.

Lemma ensureDirectory_madeOnly dir h r h' :
  ensureDirectory dir h = (r, h') ->
  madeOnly [dir] h h'
  /\ (forall e, r = Throw e -> exists code, e = SystemError code dir).
Proof.
  intros E. apply ensureDirectory_cases in E.
  destruct E as [(-> & -> & _) | (Hnone & Hj & [[-> Hf] | [Hf Hr]])].
  - split; [apply madeOnly_refl | discriminate].
  - split; [|discriminate]. repeat apply conj.
    + intros p n Hp. rewrite Hf. rewrite lookup_insert_ne; congruence.
    + intros p Hp Hs. rewrite Hf in *.
      destruct (decide (dir = p)) as [<-|Hne].
      * rewrite lookup_insert_eq. split; [now left | reflexivity].
      * rewrite lookup_insert_ne in Hs by exact Hne.
        destruct Hs as [x Hx]. congruence.
    + exists [dir]. split; [exact Hj | apply incl_refl].
  - split.
    + repeat apply conj.
      * intros p n Hp. now rewrite Hf.
      * intros p Hp Hs. rewrite Hf in Hs. destruct Hs as [x Hx]. congruence.
      * exists [dir]. split; [exact Hj | apply incl_refl].
    + intros e He. destruct Hr as [code ->]. injection He as <-. eauto.
Qed.

Lemma getLinuxCommand_madeOnly image parameters overrideCommands
    additionalVariables entrypointBash (h h' : State) (r : Completion string) :
  let githubHome := path.join [runnerTempPath parameters; "_github_home"] in
  let githubWorkflow := path.join [runnerTempPath parameters; "_github_workflow"] in
  getLinuxCommand getEnvVarString image parameters overrideCommands
    additionalVariables entrypointBash h = (r, h') ->
  madeOnly [githubHome; githubWorkflow] h h'
  /\ (forall e, r = Throw e ->
      exists code dir, (dir = githubHome \/ dir = githubWorkflow)
                       /\ e = SystemError code dir).
Proof.
  intros githubHome githubWorkflow. rewrite getLinuxCommand_unfold.
  fold githubHome githubWorkflow. unfold bind at 1.
  destruct (ensureDirectory githubHome h) as [r1 h1] eqn:E1.
  apply ensureDirectory_madeOnly in E1 as [M1 T1].
  destruct r1 as [[]|e1].
  - unfold bind.
    destruct (ensureDirectory githubWorkflow h1) as [r2 h2] eqn:E2.
    apply ensureDirectory_madeOnly in E2 as [M2 T2].
    pose proof (madeOnly_trans _ _ _ _ _ M1 M2) as M.
    destruct r2 as [[]|e2]; intros [= <- <-]; (split; [exact M|]).
    + discriminate.
    + intros e [= <-]. destruct (T2 e2 eq_refl) as [code ->].
      exists code, githubWorkflow. split; [now right | reflexivity].
  - intros [= <- <-]. split.
    + apply (madeOnly_trans [githubHome] [githubWorkflow] h h1 h1 M1).
      apply madeOnly_refl.
    + intros e [= <-]. destruct (T1 e1 eq_refl) as [code ->].
      exists code, githubHome. split; [now left | reflexivity].
Qed.

(** X8.  Whatever happens, the builder of the Linux path leaves every node
    of the host as it is, adds nothing but the two auxiliary directories,
    starts no process and reads and removes no file; when it fails, it
    fails with the error of the file system for one of the two
    directories, which could not be made. *)
Theorem linux_builder_makes_directories_only image parameters overrideCommands
    additionalVariables entrypointBash (h h' : State) (r : Completion string) :
  let githubHome := path.join [runnerTempPath parameters; "_github_home"] in
  let githubWorkflow := path.join [runnerTempPath parameters; "_github_workflow"] in
  getLinuxCommand getEnvVarString image parameters overrideCommands
    additionalVariables entrypointBash h = (r, h') ->
  (forall p n, files h !! p = Some n -> files h' !! p = Some n)
  /\ (forall p, files h !! p = None -> is_Some (files h' !! p) ->
      (p = githubHome \/ p = githubWorkflow) /\ files h' !! p = Some Directory)
  /\ (exists dirs,
        journal h' = journal h ++ map MakeDirectory dirs
        /\ incl dirs [githubHome; githubWorkflow])
  /\ (forall e, r = Throw e ->
      exists code dir, (dir = githubHome \/ dir = githubWorkflow)
                       /\ e = SystemError code dir).
Proof.
  intros githubHome githubWorkflow H.
  apply getLinuxCommand_madeOnly in H as [(K & N & J) T].
  repeat apply conj; auto.
  intros p Hp Hs. destruct (N p Hp Hs) as [Hin Hd]. split; [|exact Hd].
  destruct Hin as [<-|[<-|[]]]; auto.
Qed.

End HostEffects.

(** ** How [run] ends *)

Section RunOutcomes.
Import Js Host HostFacts Docker.

Variable getEnvVarString :
  DockerParameters -> option (list StringKeyValuePair) -> string.
Variable spawn : Spawn.

Variables (platform image : string) (parameters : DockerParameters)
  (silent : bool) (overrideCommands : string)
  (additionalVariables : list StringKeyValuePair) (options : ExecOptions)
  (entrypointBash : bool).

Local Abbreviation githubHome :=
  (path.join [runnerTempPath parameters; "_github_home"]).
Local Abbreviation githubWorkflow :=
  (path.join [runnerTempPath parameters; "_github_workflow"]).
Local Abbreviation started :=
  (fun cmd => Exec cmd None (mkExecOptions (Some silent) (Some true))).
Local Abbreviation running :=
  (run getEnvVarString spawn platform image parameters silent overrideCommands
     additionalVariables options entrypointBash).
Local Abbreviation building :=
  (getLinuxCommand getEnvVarString image parameters overrideCommands
     additionalVariables entrypointBash).

Lemma exec_tolerant_cases commandLine args h :
  exec spawn commandLine args (mkExecOptions (Some silent) (Some true)) h
  = (match spawn h commandLine args with
     | Exited code => Return code
     | LaunchFailed => Throw (ExecFailure None)
     end,
     record (Exec commandLine args (mkExecOptions (Some silent) (Some true))) h).
Proof.
  unfold exec. destruct (spawn h commandLine args) as [|c]; [reflexivity|].
  cbn [ignoreReturnCode isTrue]. now rewrite orb_true_r.
Qed.

Lemma run_cases h :
  running h
  = if platform =? "linux" then
      match building h with
      | (Return cmd, built) =>
          exec spawn cmd None (mkExecOptions (Some silent) (Some true)) built
      | (Throw e, built) => (Throw e, built)
      end
    else if platform =? "win32" then
      exec spawn (getWindowsCommand getEnvVarString image parameters) None
        (mkExecOptions (Some silent) (Some true)) h
    else
      (Throw (Error ("Operation system, " +:+ platform +:+ ", is not supported yet.")),
       h).
Proof.
  unfold run, bind. destruct (platform =? "linux"); [reflexivity|].
  now destruct (platform =? "win32").
Qed.

(** X9.  When [run] throws, it is for one of three reasons: the platform is
    neither [linux] nor [win32], and nothing has happened; or, on Linux,
    making one of the two auxiliary directories has failed with an error
    of the file system, and no process has been started; or the process
    could not be started.  It never throws because of the code the
    process exits with. *)
Theorem run_throws_for_three_reasons (h h' : State) (e : Exception) :
  running h = (Throw e, h') ->
  (platform <> "linux" /\ platform <> "win32" /\ h' = h
   /\ e = Error ("Operation system, " +:+ platform +:+ ", is not supported yet."))
  \/ (platform = "linux"
      /\ madeOnly [githubHome; githubWorkflow] h h'
      /\ exists code dir, (dir = githubHome \/ dir = githubWorkflow)
                          /\ e = SystemError code dir)
  \/ ((platform = "linux" \/ platform = "win32")
      /\ e = ExecFailure None
      /\ exists cmd built,
           spawn built cmd None = LaunchFailed /\ h' = record (started cmd) built).
Proof.
  rewrite run_cases.
  destruct (platform =? "linux") eqn:EL.
  - apply String.eqb_eq in EL.
    destruct (building h) as [[cmd|e0] built] eqn:EB.
    + rewrite exec_tolerant_cases.
      destruct (spawn built cmd None) eqn:ES; [|discriminate].
      intros [= <- <-]. right. right. split; [now left|]. split; [reflexivity|].
      now exists cmd, built.
    + intros [= <- <-]. right. left. split; [exact EL|].
      apply getLinuxCommand_madeOnly in EB as [M T]. split; [exact M|].
      now apply T.
  - apply String.eqb_neq in EL.
    destruct (platform =? "win32") eqn:EW.
    + apply String.eqb_eq in EW. rewrite exec_tolerant_cases.
      destruct (spawn h _ None) eqn:ES; [|discriminate].
      intros [= <- <-]. right. right. split; [now right|]. split; [reflexivity|].
      eexists _, h. split; [exact ES | reflexivity].
    + apply String.eqb_neq in EW. intros [= <- <-]. now left.
Qed.

(** X10.  When [run] returns a code, it has started exactly one process, the
    command of the platform, as the last thing it did, with [silent] as
    the caller asked and [ignoreReturnCode] set, and that process has
    exited with that code. *)
Theorem run_returns_the_code_of_its_one_process (h h' : State) (code : Z) :
  running h = (Return code, h') ->
  exists cmd built,
    h' = record (started cmd) built
    /\ spawn built cmd None = Exited code
    /\ ((platform = "linux"
         /\ building h = (Return cmd, built)
         /\ cmd = Text.render
                    (linuxTemplate getEnvVarString image parameters
                       overrideCommands additionalVariables entrypointBash)
         /\ madeOnly [githubHome; githubWorkflow] h built)
        \/ (platform = "win32"
            /\ cmd = getWindowsCommand getEnvVarString image parameters
            /\ built = h)).
Proof.
  rewrite run_cases.
  destruct (platform =? "linux") eqn:EL.
  - apply String.eqb_eq in EL.
    destruct (building h) as [[cmd|e0] built] eqn:EB; [|discriminate].
    rewrite exec_tolerant_cases.
    destruct (spawn built cmd None) eqn:ES; [discriminate|].
    intros [= <- <-]. exists cmd, built.
    split; [reflexivity|]. split; [exact ES|]. left.
    split; [exact EL|]. split; [reflexivity|]. split.
    + now apply getLinuxCommand_text in EB.
    + now apply getLinuxCommand_madeOnly in EB as [M _].
  - destruct (platform =? "win32") eqn:EW; [|discriminate].
    apply String.eqb_eq in EW. rewrite exec_tolerant_cases.
    destruct (spawn h _ None) eqn:ES; [discriminate|].
    intros [= <- <-]. eexists _, h.
    split; [reflexivity|]. split; [exact ES|]. right. auto.
Qed.

(** X11.  On Linux, where the directory that is to hold the first
    auxiliary directory is not there or is not a directory, [run] fails
    at the first auxiliary directory with the error of the file system
    for it: nothing is made and no process is started. *)
Theorem run_fails_without_the_temporary_directory (h : State) :
  platform = "linux" ->
  files h !! githubHome = None ->
  files h !! path.dirname githubHome <> Some Directory ->
  exists code,
    running h
    = (Throw (SystemError code githubHome),
       mkState (files h) (journal h ++ [MakeDirectory githubHome])).
Proof.
  intros EL Hhome Hparent. rewrite run_cases.
  apply String.eqb_eq in EL. rewrite EL.
  rewrite getLinuxCommand_unfold.
  unfold bind at 1. unfold ensureDirectory, bind, existsSync.
  rewrite bool_decide_eq_false_2 by (rewrite Hhome; now intros [x Hx]).
  cbn [negb]. unfold mkdirSync. rewrite Hhome.
  destruct (files h !! path.dirname githubHome) as [[c|]|] eqn:E;
    [| congruence |]; eexists; reflexivity.
Qed.

(** X12.  A platform that does not pass [checkCompatibility] does not get to
    build a command either: the platforms [run] knows are among the
    supported ones.  [checkCompatibility] returns exactly on [linux],
    [win32] and [darwin] and changes nothing. *)
Theorem run_knows_supported_platforms_only (h : State) :
  (Action.checkCompatibility platform h = (Return tt, h)
   <-> platform = "linux" \/ platform = "win32" \/ platform = "darwin")
  /\ (Action.checkCompatibility platform h <> (Return tt, h) ->
      Action.checkCompatibility platform h
      = (Throw (Error ("Currently " +:+ platform +:+ "-platform is not supported")), h)
      /\ running h
         = (Throw (Error ("Operation system, " +:+ platform
                          +:+ ", is not supported yet.")), h)).
Proof.
  assert (Hinc : Js.includes Action.supportedPlatforms platform = true
                 <-> platform = "linux" \/ platform = "win32" \/ platform = "darwin").
  { unfold Js.includes, Action.supportedPlatforms. cbn [existsb].
    rewrite !orb_true_iff, !String.eqb_eq. intuition congruence. }
  unfold Action.checkCompatibility.
  destruct (Js.includes Action.supportedPlatforms platform) eqn:E; cbn [negb].
  - split; [split; [intros _; now apply Hinc | reflexivity]|].
    intros H. now contradiction H.
  - split.
    + split; [discriminate|]. intros H. apply Hinc in H. discriminate.
    + intros _. split; [reflexivity|]. rewrite run_cases.
      assert (platform <> "linux") by (intros ->; discriminate).
      assert (platform <> "win32") by (intros ->; discriminate).
      now rewrite (proj2 (String.eqb_neq _ _)), (proj2 (String.eqb_neq _ _)).
Qed.

End RunOutcomes.

Lemma run_throws_for_three_reasons_witness :
  let unstartable : Host.Spawn := fun _ _ _ => Host.LaunchFailed in
  Docker.run Sample.noVariables unstartable "win32" "unityci/editor"
    Sample.parameters false "" [] (Host.mkExecOptions None None) false Sample.clean
  = (Host.Throw (Host.ExecFailure None),
     Host.record
       (Host.Exec (Docker.getWindowsCommand Sample.noVariables "unityci/editor"
                     Sample.parameters)
          None (Host.mkExecOptions (Some false) (Some true)))
       Sample.clean)
  /\ exists cmd built, unstartable built cmd None = Host.LaunchFailed.
Proof.
  cbv zeta. split; [reflexivity|].
  destruct (run_throws_for_three_reasons Sample.noVariables
              (fun _ _ _ => Host.LaunchFailed) "win32" "unityci/editor"
              Sample.parameters false "" [] (Host.mkExecOptions None None) false
              Sample.clean _ (Host.ExecFailure None) eq_refl)
    as [(_ & E & _) | [(E & _) | (_ & _ & cmd & built & E & _)]].
  - now contradiction E.
  - discriminate E.
  - now exists cmd, built.
Defined.

Lemma run_returns_the_code_of_its_one_process_witness :
  exists cmd built,
    snd (Docker.run Sample.noVariables (Sample.allExit 137) "linux"
           "unityci/editor" Sample.parameters false "" []
           (Host.mkExecOptions None None) false Sample.clean)
    = Host.record
        (Host.Exec cmd None (Host.mkExecOptions (Some false) (Some true))) built
    /\ Sample.allExit 137 built cmd None = Host.Exited 137.
Proof.
  destruct (run_returns_the_code_of_its_one_process Sample.noVariables
              (Sample.allExit 137) "linux" "unityci/editor" Sample.parameters
              false "" [] (Host.mkExecOptions None None) false Sample.clean
              (snd (Docker.run Sample.noVariables (Sample.allExit 137) "linux"
                      "unityci/editor" Sample.parameters false "" []
                      (Host.mkExecOptions None None) false Sample.clean))
              137 eq_refl)
    as (cmd & built & E1 & E2 & _).
  now exists cmd, built.
Defined.

Lemma run_fails_without_the_temporary_directory_witness :
  (exists code,
     Docker.run Sample.noVariables Sample.allSucceed "linux" "unityci/editor"
       Sample.parameters false "" [] (Host.mkExecOptions None None) false
       Sample.obstructed
     = (Host.Throw (Host.SystemError code "/tmp/_github_home"),
        Host.mkState (Host.files Sample.obstructed)
          (Host.journal Sample.obstructed
           ++ [Host.MakeDirectory "/tmp/_github_home"])))
  /\ Docker.run Sample.noVariables Sample.allSucceed "linux" "unityci/editor"
       Sample.parameters false "" [] (Host.mkExecOptions None None) false
       Sample.obstructed
     = (Host.Throw (Host.SystemError "ENOTDIR" "/tmp/_github_home"),
        Host.mkState (Host.files Sample.obstructed)
          [Host.MakeDirectory "/tmp/_github_home"])
  /\ Docker.run Sample.noVariables Sample.allSucceed "linux" "unityci/editor"
       Sample.parameters false "" [] (Host.mkExecOptions None None) false
       Sample.bare
     = (Host.Throw (Host.SystemError "ENOENT" "/tmp/_github_home"),
        Host.mkState ∅ [Host.MakeDirectory "/tmp/_github_home"]).
Proof.
  split; [|split; reflexivity].
  apply (run_fails_without_the_temporary_directory Sample.noVariables
           Sample.allSucceed "linux" "unityci/editor" Sample.parameters false ""
           [] (Host.mkExecOptions None None) false Sample.obstructed);
    [reflexivity | reflexivity | vm_compute; discriminate].
Defined.

Lemma run_knows_supported_platforms_only_witness :
  Action.checkCompatibility "freebsd" Sample.clean
  = (Host.Throw (Host.Error "Currently freebsd-platform is not supported"),
     Sample.clean)
  /\ Action.checkCompatibility "darwin" Sample.clean = (Host.Return tt, Sample.clean).
Proof.
  split.
  - apply (proj2 (run_knows_supported_platforms_only Sample.noVariables
                    Sample.allSucceed "freebsd" "unityci/editor" Sample.parameters
                    false "" [] (Host.mkExecOptions None None) false Sample.clean)).
    discriminate.
  - apply (proj1 (run_knows_supported_platforms_only Sample.noVariables
                    Sample.allSucceed "darwin" "unityci/editor" Sample.parameters
                    false "" [] (Host.mkExecOptions None None) false Sample.clean)).
    auto.
Defined.

(** ** The lines of the two commands *)

Section CommandLines.
Import Text TextFacts Js Host HostFacts Docker.

Lemma render_cons (p : Piece) (t : list Piece) :
  render (p :: t) = text p +:+ render t.
Proof. reflexivity. Qed.

(** A line of a template shows in its text. *)
Lemma occurs_line (n : string) (l first : list Piece) (rest : list (list Piece)) :
  render l = n -> In l rest -> occurs n (render (lines first rest)) = true.
Proof.
  intros <- Hin. apply in_split in Hin as (r1 & r2 & ->).
  unfold lines. rewrite flat_map_app. cbn [flat_map].
  rewrite !render_app, render_cons.
  apply occurs_app_r, occurs_app_r, occurs_app_l, occurs_app_r.
  rewrite <- (append_empty_r (render l)) at 2. apply occurs_here.
Qed.

Lemma render_lines_snoc (first l : list Piece) (rest : list (list Piece)) :
  render (lines first (rest ++ [l]))
  = render (lines first rest) +:+ continuation +:+ render l.
Proof.
  unfold lines. rewrite flat_map_app. cbn [flat_map].
  rewrite app_nil_r, app_assoc, render_app, render_cons. reflexivity.
Qed.

Lemma starts_with_first (a : string) (rest : list (list Piece)) :
  starts_with a (render (lines [Lit a] rest)) = true.
Proof.
  unfold lines. rewrite render_app. cbn [render fold_right text].
  rewrite append_empty_r. apply starts_with_app.
Qed.

Variable getEnvVarString :
  DockerParameters -> option (list StringKeyValuePair) -> string.
Variables (image : string) (parameters : DockerParameters)
  (overrideCommands : string) (additionalVariables : list StringKeyValuePair)
  (entrypointBash : bool).

Local Abbreviation linux :=
  (render (linuxTemplate getEnvVarString image parameters overrideCommands
             additionalVariables entrypointBash)).
Local Abbreviation windows := (getWindowsCommand getEnvVarString image parameters).

(** Finds the line among those of the template, and checks its text. *)
Ltac find_line :=
  repeat (first [left; reflexivity | right]).

Ltac linux_option l :=
  apply (occurs_line _ l);
  [cbn [render fold_right text]; rewrite ?append_assoc, ?append_empty_r; reflexivity
  |apply in_or_app; left; unfold linuxOptions; cbv zeta; cbn [In]; find_line].

Ltac windows_line l :=
  apply (occurs_line _ l);
  [cbn [render fold_right text]; rewrite ?append_assoc, ?append_empty_r; reflexivity
  |cbn [In]; find_line].

Lemma last_line (first : list Piece) (rest : list (list Piece)) :
  rest <> [] ->
  render (lines first rest)
  = render (lines first (removelast rest)) +:+ continuation
    +:+ render (List.last rest []).
Proof.
  intros H. rewrite (app_removelast_last [] H) at 1. apply render_lines_snoc.
Qed.

Ltac built H := rewrite (getLinuxCommand_text _ _ _ _ _ _ _ _ _ H).

(** X13.  Both commands are [docker run] commands that remove the container
    when it exits and carry the CPU and memory limits as they are given;
    the Windows command carries the isolation mode as well. *)
Theorem commands_carry_the_limits (h h' : State) (cmd : string) :
  getLinuxCommand getEnvVarString image parameters overrideCommands
    additionalVariables entrypointBash h = (Return cmd, h') ->
  (starts_with "docker run" cmd = true
   /\ occurs "--rm" cmd = true
   /\ occurs ("--cpus=" +:+ dockerCpuLimit parameters) cmd = true
   /\ occurs ("--memory=" +:+ dockerMemoryLimit parameters) cmd = true)
  /\ (starts_with "docker run" windows = true
      /\ occurs "--rm" windows = true
      /\ occurs ("--cpus=" +:+ dockerCpuLimit parameters) windows = true
      /\ occurs ("--memory=" +:+ dockerMemoryLimit parameters) windows = true
      /\ occurs ("--isolation=" +:+ str (dockerIsolationMode parameters)) windows
         = true).
Proof.
  intros H. built H. split.
  - unfold linuxTemplate. repeat apply conj.
    + apply starts_with_first.
    + linux_option [Lit "--rm"].
    + linux_option [Lit "--cpus="; Ins (dockerCpuLimit parameters)].
    + linux_option [Lit "--memory="; Ins (dockerMemoryLimit parameters)].
  - unfold getWindowsCommand, windowsTemplate. repeat apply conj.
    + apply starts_with_first.
    + windows_line [Lit "--rm"].
    + windows_line [Lit "--cpus="; Ins (dockerCpuLimit parameters)].
    + windows_line [Lit "--memory="; Ins (dockerMemoryLimit parameters)].
    + windows_line [Lit "--isolation="; Ins (str (dockerIsolationMode parameters))].
Qed.

(** X14.  In both commands the working directory of the container, its
    [GITHUB_WORKSPACE] and the place where the workspace of the host is
    mounted are one and the same [dockerWorkspacePath], on Windows on
    drive [c:]. *)
Theorem workspace_is_mounted_where_the_container_works (h h' : State)
    (cmd : string) :
  let inside := dockerWorkspacePath parameters in
  getLinuxCommand getEnvVarString image parameters overrideCommands
    additionalVariables entrypointBash h = (Return cmd, h') ->
  (occurs ("--workdir " +:+ inside) cmd = true
   /\ occurs ("--env GITHUB_WORKSPACE=" +:+ inside) cmd = true
   /\ occurs ("--volume " +:+ quoted (workspace parameters) +:+ ":"
              +:+ quoted (inside +:+ ":z")) cmd = true)
  /\ (occurs ("--workdir c:" +:+ inside) windows = true
      /\ occurs ("--env GITHUB_WORKSPACE=c:" +:+ inside) windows = true
      /\ occurs ("--volume " +:+ quoted (workspace parameters) +:+ ":"
                 +:+ quoted ("c:" +:+ inside)) windows = true).
Proof.
  intros inside H. built H. subst inside. unfold quoted. split.
  - unfold linuxTemplate. repeat apply conj.
    + linux_option [Lit "--workdir "; Ins (dockerWorkspacePath parameters)].
    + linux_option [Lit "--env GITHUB_WORKSPACE=";
                    Ins (dockerWorkspacePath parameters)].
    + linux_option [Lit ("--volume " +:+ quote); Ins (workspace parameters);
                    Lit (quote +:+ ":" +:+ quote);
                    Ins (dockerWorkspacePath parameters); Lit (":z" +:+ quote)].
  - unfold getWindowsCommand, windowsTemplate. repeat apply conj.
    + windows_line [Lit "--workdir c:"; Ins (dockerWorkspacePath parameters)].
    + windows_line [Lit "--env GITHUB_WORKSPACE=c:";
                    Ins (dockerWorkspacePath parameters)].
    + windows_line [Lit ("--volume " +:+ quote); Ins (workspace parameters);
                    Lit (quote +:+ ":" +:+ quote +:+ "c:");
                    Ins (dockerWorkspacePath parameters); Lit quote].
Qed.

(** X15.  With a private token, both commands hand it to the container as
    [GIT_PRIVATE_TOKEN], in double quotes and otherwise as it is. *)
Theorem token_is_passed_when_set (h h' : State) (cmd : string) :
  let option :=
    "--env GIT_PRIVATE_TOKEN=" +:+ quoted (str (gitPrivateToken parameters)) in
  truthy (gitPrivateToken parameters) = true ->
  getLinuxCommand getEnvVarString image parameters overrideCommands
    additionalVariables entrypointBash h = (Return cmd, h') ->
  occurs option cmd = true /\ occurs option windows = true.
Proof.
  intros option Htoken H. built H. subst option. unfold quoted. split.
  - unfold linuxTemplate.
    apply (occurs_line _ [Lit ("--env GIT_PRIVATE_TOKEN=" +:+ quote);
                          Ins (str (gitPrivateToken parameters)); Lit quote]).
    + cbn [render fold_right text].
      rewrite ?append_assoc, ?append_empty_r. reflexivity.
    + apply in_or_app. left. unfold linuxOptions. cbv zeta. rewrite Htoken.
      cbn [In]. find_line.
  - unfold getWindowsCommand, windowsTemplate. rewrite Htoken.
    windows_line [Lit ("--env GIT_PRIVATE_TOKEN=" +:+ quote);
                  Ins (str (gitPrivateToken parameters)); Lit quote].
Qed.

(** X16.  With an SSH agent, the Linux command mounts its socket on
    [/ssh-agent] and points [SSH_AUTH_SOCK] there. *)
Theorem agent_socket_is_mounted_when_set (h h' : State) (cmd : string) :
  truthy (sshAgent parameters) = true ->
  getLinuxCommand getEnvVarString image parameters overrideCommands
    additionalVariables entrypointBash h = (Return cmd, h') ->
  occurs "--env SSH_AUTH_SOCK=/ssh-agent" cmd = true
  /\ occurs ("--volume " +:+ str (sshAgent parameters) +:+ ":/ssh-agent") cmd
     = true.
Proof.
  intros Hagent H. built H. unfold linuxTemplate. split.
  - apply (occurs_line _ [Lit "--env SSH_AUTH_SOCK=/ssh-agent"]);
      [reflexivity|].
    apply in_or_app. left. unfold linuxOptions. cbv zeta. rewrite Hagent.
    cbn [In]. find_line.
  - apply (occurs_line _ [Lit "--volume "; Ins (str (sshAgent parameters));
                          Lit ":/ssh-agent"]).
    + cbn [render fold_right text].
      rewrite ?append_assoc, ?append_empty_r. reflexivity.
    + apply in_or_app. left. unfold linuxOptions. cbv zeta. rewrite Hagent.
      cbn [In]. find_line.
Qed.

(** X17.  The script each command runs by default is one the command itself
    mounts from the action folder: on Linux [/entrypoint.sh], the command
    when there is no override; on Windows [c:/steps/entrypoint.ps1],
    which follows the image at the end of the command. *)
Theorem default_script_is_mounted (h h' : State) (cmd : string) :
  getLinuxCommand getEnvVarString image parameters overrideCommands
    additionalVariables entrypointBash h = (Return cmd, h') ->
  (occurs ("--volume "
           +:+ quoted (actionFolder parameters
                       +:+ "/platforms/ubuntu/entrypoint.sh:/entrypoint.sh:z"))
     cmd = true
   /\ (overrideCommands = "" ->
       exists front, cmd = front +:+ continuation +:+ quoted "/entrypoint.sh"))
  /\ (occurs ("--volume " +:+ quoted (actionFolder parameters +:+ "/platforms/windows")
              +:+ ":" +:+ quoted "c:/steps") windows = true
      /\ exists front,
           windows = front +:+ continuation +:+ image +:+ continuation
                     +:+ "powershell c:/steps/entrypoint.ps1").
Proof.
  intros H. built H. unfold quoted. split; split.
  - unfold linuxTemplate.
    linux_option [Lit ("--volume " +:+ quote); Ins (actionFolder parameters);
                  Lit ("/platforms/ubuntu/entrypoint.sh:/entrypoint.sh:z" +:+ quote)].
  - intros ->. unfold linuxTemplate, linuxInvocation.
    rewrite last_line
      by (intros E; apply app_eq_nil in E as [_ E]; discriminate).
    match goal with
    | |- context [List.last (?o ++ [?a; ?b; ?c; ?d]) []] =>
        replace (List.last (o ++ [a; b; c; d]) []) with d
          by (change [a; b; c; d] with ([a; b; c] ++ [d]);
              now rewrite app_assoc, last_last)
    end.
    match goal with
    | |- context [render (lines ?f ?r)] => exists (render (lines f r))
    end.
    reflexivity.
  - unfold getWindowsCommand, windowsTemplate.
    windows_line [Lit ("--volume " +:+ quote); Ins (actionFolder parameters);
                  Lit ("/platforms/windows" +:+ quote +:+ ":" +:+ quoted "c:/steps")].
  - unfold getWindowsCommand, windowsTemplate.
    rewrite last_line by discriminate. cbn [removelast List.last].
    rewrite last_line by discriminate. cbn [removelast List.last].
    match goal with
    | |- context [render (lines ?f ?r)] =>
        exists (render (lines f r)); generalize (render (lines f r))
    end.
    intros front. cbn [render fold_right text].
    now rewrite !append_assoc, !append_empty_r.
Qed.

(** X18.  The Windows command names no identity file and overrides no
    entrypoint: [--cidfile] and [--entrypoint] occur in it only inside the
    values the caller supplies.  And on Windows [run] does not look at the
    override command, the additional variables or the entrypoint flag. *)
Theorem windows_command_has_no_identity_file :
  occurs "--cidfile" windows
  = existsb (occurs "--cidfile")
      (interpolated (windowsTemplate getEnvVarString image parameters))
  /\ occurs "--entrypoint" windows
     = existsb (occurs "--entrypoint")
         (interpolated (windowsTemplate getEnvVarString image parameters))
  /\ (forall spawn silent options h overrideCommands' additionalVariables'
         entrypointBash',
        run getEnvVarString spawn "win32" image parameters silent overrideCommands
          additionalVariables options entrypointBash h
        = run getEnvVarString spawn "win32" image parameters silent
            overrideCommands' additionalVariables' options entrypointBash' h).
Proof.
  unfold getWindowsCommand, windowsTemplate. repeat apply conj.
  - destruct (truthy (gitPrivateToken parameters)); cbn [whenever];
      apply occurs_interpolated;
      [discriminate | vm_compute; reflexivity | vm_compute; reflexivity
      |discriminate | vm_compute; reflexivity | vm_compute; reflexivity].
  - destruct (truthy (gitPrivateToken parameters)); cbn [whenever];
      apply occurs_interpolated;
      [discriminate | vm_compute; reflexivity | vm_compute; reflexivity
      |discriminate | vm_compute; reflexivity | vm_compute; reflexivity].
  - reflexivity.
Qed.

End CommandLines.

(** ** The theorems above, on the sample hosts *)

Lemma prepared_host_builds image (parameters : Docker.DockerParameters)
    overrideCommands additionalVariables entrypointBash :
  Docker.runnerTempPath parameters = "/tmp" ->
  Docker.getLinuxCommand Sample.noVariables image parameters overrideCommands
    additionalVariables entrypointBash Sample.prepared
  = (Host.Return
       (Text.render (Docker.linuxTemplate Sample.noVariables image parameters
                       overrideCommands additionalVariables entrypointBash)),
     Sample.prepared).
Proof.
  intros E. unfold Docker.getLinuxCommand. rewrite E. reflexivity.
Qed.

Lemma removal_of_a_directory_witness :
  Docker.ensureContainerRemoval Sample.allSucceed Sample.runner Sample.blocked
  = (Host.Throw (Host.SystemError "EISDIR" "/tmp/container_run1"),
     Host.record (Host.ReadFile "/tmp/container_run1") Sample.blocked).
Proof.
  apply (removal_of_a_directory Sample.allSucceed Sample.runner Sample.blocked).
  reflexivity.
Defined.


Lemma removal_returns_exactly_when_both_calls_succeed_witness :
  (exists h', Docker.ensureContainerRemoval Sample.allSucceed Sample.runner
                Sample.leftover = (Host.Return tt, h'))
  /\ ~ (exists h', Docker.ensureContainerRemoval Sample.cleanupFails Sample.runner
                     Sample.leftover = (Host.Return tt, h')).
Proof.
  split.
  - apply (removal_returns_exactly_when_both_calls_succeed Sample.allSucceed
             Sample.runner Sample.leftover "abc123" eq_refl).
    split; reflexivity.
  - intros H.
    apply (removal_returns_exactly_when_both_calls_succeed Sample.cleanupFails
             Sample.runner Sample.leftover "abc123" eq_refl) in H as [H _].
    discriminate H.
Defined.

Lemma linux_builder_makes_directories_only_witness :
  let after :=
    snd (Docker.getLinuxCommand Sample.noVariables "unityci/editor"
           Sample.parameters "" [] false Sample.leftover) in
  Host.files after !! "/tmp/container_run1" = Some (Host.File "abc123")
  /\ Host.files after !! "/tmp/_github_home" = Some Host.Directory.
Proof.
  cbv zeta.
  destruct (linux_builder_makes_directories_only Sample.noVariables
              "unityci/editor" Sample.parameters "" [] false Sample.leftover
              (snd (Docker.getLinuxCommand Sample.noVariables "unityci/editor"
                      Sample.parameters "" [] false Sample.leftover))
              (Host.Return
                 (Text.render (Docker.linuxTemplate Sample.noVariables
                                 "unityci/editor" Sample.parameters "" [] false)))
              eq_refl) as (Hkeep & Hnew & _).
  split.
  - now apply Hkeep.
  - apply Hnew; [reflexivity|]. now exists Host.Directory.
Defined.

Lemma commands_carry_the_limits_witness :
  Text.occurs "--cpus=2"
    (Text.render (Docker.linuxTemplate Sample.noVariables "unityci/editor"
                    Sample.parameters "" [] false)) = true
  /\ Text.occurs "--memory=4g"
       (Docker.getWindowsCommand Sample.noVariables "unityci/editor"
          Sample.parameters) = true.
Proof.
  destruct (commands_carry_the_limits Sample.noVariables "unityci/editor"
              Sample.parameters "" [] false Sample.prepared Sample.prepared _
              (prepared_host_builds "unityci/editor" Sample.parameters "" [] false eq_refl))
    as ((_ & _ & H1 & _) & (_ & _ & _ & H2 & _)).
  split; [exact H1 | exact H2].
Defined.

Lemma workspace_is_mounted_where_the_container_works_witness :
  Text.occurs "--workdir /github/workspace"
    (Text.render (Docker.linuxTemplate Sample.noVariables "unityci/editor"
                    Sample.parameters "" [] false)) = true
  /\ Text.occurs "--workdir c:/github/workspace"
       (Docker.getWindowsCommand Sample.noVariables "unityci/editor"
          Sample.parameters) = true.
Proof.
  destruct (workspace_is_mounted_where_the_container_works Sample.noVariables
              "unityci/editor" Sample.parameters "" [] false Sample.prepared
              Sample.prepared _ (prepared_host_builds "unityci/editor" Sample.parameters "" [] false eq_refl))
    as ((H1 & _) & (H2 & _)).
  split; [exact H1 | exact H2].
Defined.

Lemma token_is_passed_when_set_witness :
  Js.truthy (Docker.gitPrivateToken Sample.withToken) = true
  /\ Text.occurs ("--env GIT_PRIVATE_TOKEN=" +:+ Docker.quoted "s3cret")
       (Text.render (Docker.linuxTemplate Sample.noVariables "unityci/editor"
                       Sample.withToken "" [] false)) = true.
Proof.
  split; [reflexivity|].
  exact (proj1 (token_is_passed_when_set Sample.noVariables "unityci/editor"
                  Sample.withToken "" [] false Sample.prepared Sample.prepared _
                  eq_refl (prepared_host_builds "unityci/editor" Sample.withToken "" [] false eq_refl))).
Defined.

Lemma agent_socket_is_mounted_when_set_witness :
  Js.truthy (Docker.sshAgent Sample.withToken) = true
  /\ Text.occurs "--volume /run/agent.sock:/ssh-agent"
       (Text.render (Docker.linuxTemplate Sample.noVariables "unityci/editor"
                       Sample.withToken "" [] false)) = true.
Proof.
  split; [reflexivity|].
  exact (proj2 (agent_socket_is_mounted_when_set Sample.noVariables
                  "unityci/editor" Sample.withToken "" [] false Sample.prepared
                  Sample.prepared _ eq_refl
                  (prepared_host_builds "unityci/editor" Sample.withToken "" [] false eq_refl))).
Defined.

Lemma default_script_is_mounted_witness :
  Text.occurs
    ("--volume "
     +:+ Docker.quoted "/action/platforms/ubuntu/entrypoint.sh:/entrypoint.sh:z")
    (Text.render (Docker.linuxTemplate Sample.noVariables "unityci/editor"
                    Sample.parameters "" [] false)) = true
  /\ exists front,
       Text.render (Docker.linuxTemplate Sample.noVariables "unityci/editor"
                      Sample.parameters "" [] false)
       = front +:+ Docker.continuation +:+ Docker.quoted "/entrypoint.sh".
Proof.
  destruct (default_script_is_mounted Sample.noVariables "unityci/editor"
              Sample.parameters "" [] false Sample.prepared Sample.prepared _
              (prepared_host_builds "unityci/editor" Sample.parameters "" [] false eq_refl))
    as ((H1 & H2) & _).
  split; [exact H1 | exact (H2 eq_refl)].
Defined.
